(** * AI Copilot Editor: the text-transform pipeline, embedded and verified

    The repository holds a browser editor (three variants of [App.js]) and
    three variants of the backend [server.js]:
    - the Gemini proxy ([src/backend/server.js]), module [Gemini];
    - the hardened stub server with validation, logging and probes
      (second half of [src/unnamed/part_001]), module [Hardened];
    - the minimal stub server ([src/unnamed/part_002]), module [Stub].

    and three variants of the editor component:
    - [App.js], first variant, which shows the result in a panel, module
      [AppPanel];
    - [App.js], second variant, with axios and [insertContentAt], module
      [AppAxios];
    - the [App.js] at the head of [src/unnamed/part_001], with fetch and the
      bubble menu, module [AppBubble].

    The JavaScript values the handlers observe are embedded in module [JS];
    handlers are written in a small state-and-exception monad ([Eff]) whose
    state records what leaves the program (provider calls, requests, console
    lines) next to its own mutable state. *)

From stdpp Require Import gmap strings list fin_maps pretty.
From Stdlib Require Import Ascii.

Set Warnings "-register-all".

(** ** JavaScript values and the primitive operations the handlers use *)

Module JS.

(** A JavaScript string is kept as its UTF-8 bytes.  A number is kept as the
    text [Number.prototype.toString] gives for it ("0", "1.5", "NaN", ...):
    the handlers only ever test a number for truthiness and splice it into a
    string, and both are functions of that text. *)
Inductive value :=
  | VUndefined
  | VNull
  | VBool (b : bool)
  | VNum (lit : string)
  | VStr (s : string)
  | VArr (items : list value)
  | VObj (fields : gmap string value).

(** [!v] is [negb (truthy v)]. *)
Definition truthy (v : value) : bool :=
  match v with
  | VUndefined | VNull => false
  | VBool b => b
  | VNum lit => negb (bool_decide (lit = "0") || bool_decide (lit = "NaN"))
  | VStr s => negb (bool_decide (s = ""))   (* only [""] is falsy *)
  | VArr _ | VObj _ => true
  end.

Definition typeof (v : value) : string :=
  match v with
  | VUndefined => "undefined"
  | VNull => "object"
  | VBool _ => "boolean"
  | VNum _ => "number"
  | VStr _ => "string"
  | VArr _ | VObj _ => "object"
  end.

(** [Array.prototype.join(",")] over already rendered elements. *)
Fixpoint join_comma (parts : list string) : string :=
  match parts with
  | [] => ""
  | [p] => p
  | p :: rest => p +:+ "," +:+ join_comma rest
  end.

(** ToString, as applied by [+] with a string operand and by template
    literals; [None] when the conversion throws.  An object parsed from
    JSON converts through [Object.prototype.toString] unless it has a key
    [toString] of its own: that key holds data, not a function, and the
    inherited [valueOf] gives the object back, so ToPrimitive finds nothing
    to call and throws.  An array converts through [join]: [null] and
    [undefined] render empty, every other element by ToString, and the
    array fails where an element fails. *)
Fixpoint toString (v : value) : option string :=
  match v with
  | VUndefined => Some "undefined"
  | VNull => Some "null"
  | VBool true => Some "true"
  | VBool false => Some "false"
  | VNum lit => Some lit
  | VStr s => Some s
  | VArr items =>
      join_comma <$>
        (fix elements (l : list value) : option (list string) :=
           match l with
           | [] => Some []
           | x :: rest =>
               s ← match x with
                   | VUndefined | VNull => Some ""
                   | _ => toString x
                   end;
               ss ← elements rest;
               Some (s :: ss)
           end) items
  | VObj fields =>
      match fields !! "toString" with
      | Some _ => None
      | None => Some "[object Object]"
      end
  end.

(** What [JSON.parse(JSON.stringify(v))] gives back: inside an object a
    key whose value is [undefined] is dropped, inside an array [undefined]
    becomes [null], and a number that is not finite becomes [null]. *)
Definition nonfinite (lit : string) : bool :=
  bool_decide (lit ∈ ["NaN"; "Infinity"; "-Infinity"]).

Fixpoint jsonify (v : value) : value :=
  match v with
  | VUndefined => VNull
  | VNum lit => if nonfinite lit then VNull else v
  | VArr items => VArr (map jsonify items)
  | VObj fields =>
      VObj (omap (λ x, match x with
                       | VUndefined => None
                       | _ => Some (jsonify x)
                       end) fields)
  | _ => v
  end.

Definition dquote : string := String (ascii_of_nat 34) "".

(** [JSON.stringify(s)] of a string: quotes around it, and inside a
    backslash before a quote or a backslash, the short escapes for
    backspace, tab, line feed, form feed and carriage return, and [\u00XX]
    for the other control characters. *)
Definition hex_digit (n : nat) : string :=
  String.substring n 1 "0123456789abcdef".

Fixpoint json_escape (s : string) : string :=
  match s with
  | EmptyString => ""
  | String c rest =>
      let n := nat_of_ascii c in
      (if n =? 34 then "\" +:+ dquote
       else if n =? 92 then "\\"
       else if n =? 8 then "\b"
       else if n =? 9 then "\t"
       else if n =? 10 then "\n"
       else if n =? 12 then "\f"
       else if n =? 13 then "\r"
       else if n <? 32 then "\u00" +:+ hex_digit (n / 16) +:+ hex_digit (n mod 16)
       else String c "")
      +:+ json_escape rest
  end.

Definition json_quote (s : string) : string :=
  dquote +:+ json_escape s +:+ dquote.

(** A member of an object, as it comes back from JSON. *)
Definition json_member (x : value) : option value :=
  match x with
  | VUndefined => None
  | _ => Some (jsonify x)
  end.

(** [o.k] for a value [o]: own fields of an object literal; primitives and
    arrays have no such field (the keys used here are never [length] or a
    prototype method). *)
Definition get_field (o : value) (k : string) : value :=
  match o with
  | VObj fields => default VUndefined (fields !! k)
  | _ => VUndefined
  end.

(** *** [String.prototype.trim]

    ECMAScript strips WhiteSpace and LineTerminator code points from both
    ends: U+0009..U+000D, U+0020, U+00A0, U+1680, U+2000..U+200A, U+2028,
    U+2029, U+202F, U+205F, U+3000 and U+FEFF.  On UTF-8 bytes these are
    one-, two- and three-byte sequences. *)

Definition ws1 (c : ascii) : bool :=
  let n := nat_of_ascii c in
  (9 <=? n) && (n <=? 13) || (n =? 32).

Definition ws2 (c1 c2 : ascii) : bool :=
  (nat_of_ascii c1 =? 194) && (nat_of_ascii c2 =? 160).

Definition ws3 (c1 c2 c3 : ascii) : bool :=
  let a := nat_of_ascii c1 in
  let b := nat_of_ascii c2 in
  let c := nat_of_ascii c3 in
  (a =? 225) && (b =? 154) && (c =? 128)                            (* U+1680 *)
  || (a =? 226) && (b =? 128)
     && ((128 <=? c) && (c <=? 138) || (c =? 168) || (c =? 169) || (c =? 175))
                                    (* U+2000..U+200A, U+2028, U+2029, U+202F *)
  || (a =? 226) && (b =? 129) && (c =? 159)                         (* U+205F *)
  || (a =? 227) && (b =? 128) && (c =? 128)                         (* U+3000 *)
  || (a =? 239) && (b =? 187) && (c =? 191).                        (* U+FEFF *)

(** Drops the longest run of sequences recognised by [w1], [w2], [w3] at the
    front of [s]. *)
Fixpoint strip (w1 : ascii → bool) (w2 : ascii → ascii → bool)
    (w3 : ascii → ascii → ascii → bool) (s : string) : string :=
  match s with
  | String c1 r1 =>
      if w1 c1 then strip w1 w2 w3 r1
      else match r1 with
           | String c2 r2 =>
               if w2 c1 c2 then strip w1 w2 w3 r2
               else match r2 with
                    | String c3 r3 =>
                        if w3 c1 c2 c3 then strip w1 w2 w3 r3 else s
                    | EmptyString => s
                    end
           | EmptyString => s
           end
  | EmptyString => s
  end.

Definition trimStart (s : string) : string := strip ws1 ws2 ws3 s.

(** The end is stripped on the reversed bytes, with the sequences read
    backwards. *)
Definition trimEnd (s : string) : string :=
  String.rev
    (strip ws1 (λ c2 c1, ws2 c1 c2) (λ c3 c2 c1, ws3 c1 c2 c3) (String.rev s)).

Definition trim (s : string) : string := trimEnd (trimStart s).

(** [s.length === 0], and [!s] for a string [s]: a string has no code units
    exactly when it is the empty string. *)
Definition has_length_0 (s : string) : bool := bool_decide (s = "").

(** Blank after trimming: [s.trim().length === 0]. *)
Definition blank (s : string) : bool := has_length_0 (trim s).

(** [s.length] counts UTF-16 code units: one per code point, two for a code
    point outside the basic plane (a four-byte sequence). *)
Fixpoint utf16_length (s : string) : nat :=
  match s with
  | EmptyString => 0
  | String c r =>
      let n := nat_of_ascii c in
      (if (128 <=? n) && (n <=? 191) then 0 else if 240 <=? n then 2 else 1)
      + utf16_length r
  end.

(** A thrown value, as far as the handlers look at it: [err.message],
    [err.stack], [err.status] (body-parser sets it) and, for an axios error,
    [err.response.data]. *)
Record js_error := JsError {
  err_name : string;
  err_message : string;
  err_stack : string;
  err_status : option nat;
  err_response_data : option value
}.

(** Errors the runtime itself raises; of the stack only the first line is
    kept. *)
Definition runtime_error (name msg : string) : js_error :=
  JsError name msg (name +:+ ": " +:+ msg) None None.
Definition TypeError : string → js_error := runtime_error "TypeError".

(** ToString as an operation that may throw. *)
Definition to_string (v : value) : js_error + string :=
  match toString v with
  | Some s => inr s
  | None => inl (runtime_error "TypeError" "Cannot convert object to primitive value")
  end.
Definition ReferenceError : string → js_error := runtime_error "ReferenceError".
Definition SyntaxError : string → js_error := runtime_error "SyntaxError".

(** What is handed to [console.log], [console.warn] and [console.error]. *)
Inductive console_arg :=
  | AVal (v : value)
  | AJsonText (v : value)          (* [JSON.stringify(v)] *)
  | AErr (e : js_error)
  | AResult (r : js_error + string).

Inductive console_line :=
  | ConsoleLog (args : list console_arg)
  | ConsoleWarn (args : list console_arg)
  | ConsoleError (args : list console_arg).

End JS.

(** ** State and exceptions *)

Module Eff.
Import JS.

(** A computation over a world [W] returns or throws, and leaves a world. *)
Definition M (W A : Type) : Type := W → (js_error + A) * W.

Definition ret {W A} (a : A) : M W A := λ w, (inr a, w).

Definition bind {W A B} (m : M W A) (k : A → M W B) : M W B :=
  λ w, match m w with
       | (inr a, w') => k a w'
       | (inl e, w') => (inl e, w')
       end.

Definition throw {W A} (e : js_error) : M W A := λ w, (inl e, w).

(** [try { body } catch (err) { handler }] *)
Definition try_catch {W A} (body : M W A) (handler : js_error → M W A) : M W A :=
  λ w, match body w with
       | (inl e, w') => handler e w'
       | r => r
       end.

(** [{ body } finally { fin }]: [fin] runs whichever way [body] ends, and
    the outcome is [body]'s unless [fin] throws. *)
Definition finally {W A} (body : M W A) (fin : M W unit) : M W A :=
  λ w, match body w with
       | (r, w') => match fin w' with
                    | (inl e, w'') => (inl e, w'')
                    | (inr _, w'') => (r, w'')
                    end
       end.

(** A result that was computed apart, returned or thrown. *)
Definition lift {W A} (r : js_error + A) : M W A := λ w, (r, w).

Definition get {W} : M W W := λ w, (inr w, w).
Definition modify {W} (f : W → W) : M W unit := λ w, (inr tt, f w).

#[global] Instance M_ret W : MRet (M W) := @ret W.
#[global] Instance M_bind W : MBind (M W) := λ A B k m, bind m k.

(** [o.k] as an expression: reading a property of [null] or [undefined]
    throws. *)
Definition prop {W} (o : value) (k : string) : M W value :=
  match o with
  | VUndefined =>
      throw (TypeError ("Cannot read properties of undefined (reading '" +:+ k +:+ "')"))
  | VNull =>
      throw (TypeError ("Cannot read properties of null (reading '" +:+ k +:+ "')"))
  | _ => ret (get_field o k)
  end.

(** [const { k } = o], where [src] is the text of the expression [o]. *)
Definition destructure {W} (src : string) (o : value) (k : string) : M W value :=
  match o with
  | VUndefined =>
      throw (TypeError ("Cannot destructure property '" +:+ k +:+ "' of '" +:+ src
                        +:+ "' as it is undefined."))
  | VNull =>
      throw (TypeError ("Cannot destructure property '" +:+ k +:+ "' of '" +:+ src
                        +:+ "' as it is null."))
  | _ => ret (get_field o k)
  end.

(** [v.length] *)
Definition length_of {W} (v : value) : M W value :=
  match v with
  | VStr s => ret (VNum (pretty (utf16_length s)))
  | VArr items => ret (VNum (pretty (length items)))
  | _ => prop v "length"
  end.

(** [o?.k] *)
Definition opt_prop (o : value) (k : string) : value :=
  match o with
  | VUndefined | VNull => VUndefined
  | _ => get_field o k
  end.

End Eff.

(** ** The server side: what a handler reads and what it leaves behind *)

Module Server.
Import JS Eff.

(** What the generative model answers to [generateContent(prompt)]: the call
    rejects, or resolves to a result whose [response.text()] throws or gives
    the text. *)
Inductive provider_outcome :=
  | Rejects (e : js_error)
  | Resolves (text : js_error + string).

(** The surroundings of the process, fixed during a run: the environment
    variables, the provider, the clock ([k]-th reading, in epoch
    milliseconds), [Date.prototype.toISOString], the text of the number
    [process.uptime()] returns at a given time, and the words in which
    Node's argument checks describe a value they received. *)
Record env := Env {
  env_NODE_ENV : option string;
  provider : value → provider_outcome;
  clock : nat → Z;
  toISOString : Z → string;
  uptime_text : Z → string;
  env_REQUEST_TIMEOUT : option string;
  received : value → string
}.

(** The mutable state of the process itself: the listening server and the
    exit code once [process.exit] was called. *)
Record process_state := Process {
  listening : bool;
  exit_code : option Z
}.

Record world := World {
  provider_calls : list value;     (* prompts handed to the provider, oldest first *)
  console : list console_line;     (* oldest first *)
  clock_reads : nat;
  process : process_state
}.

Definition set_process (f : process_state → process_state) (w : world) : world :=
  World (provider_calls w) (console w) (clock_reads w) (f (process w)).

Definition SM := M world.

Definition console_write (l : console_line) : SM unit :=
  modify (λ w, World (provider_calls w) (console w ++ [l]) (clock_reads w) (process w)).

Definition console_log (args : list console_arg) : SM unit :=
  console_write (ConsoleLog args).
Definition console_error (args : list console_arg) : SM unit :=
  console_write (ConsoleError args).

(** [Date.now()] *)
Definition Date_now (E : env) : SM Z :=
  λ w, (inr (clock E (clock_reads w)),
        World (provider_calls w) (console w) (S (clock_reads w)) (process w)).

(** [new Date().toISOString()] *)
Definition now_iso (E : env) : SM string :=
  t ← Date_now E; mret (toISOString E t).

(** [process.uptime()] *)
Definition process_uptime (E : env) : SM value :=
  t ← Date_now E; mret (VNum (uptime_text E t)).

(** [await model.generateContent(prompt)] *)
Definition generateContent (E : env) (prompt : value) : SM (js_error + string) :=
  λ w, let w' := World (provider_calls w ++ [prompt]) (console w)
                       (clock_reads w) (process w) in
       match provider E prompt with
       | Rejects e => (inl e, w')
       | Resolves r => (inr r, w')
       end.

(** [await result.response.text()] *)
Definition response_text (r : js_error + string) : SM string :=
  match r with
  | inl e => throw e
  | inr s => mret s
  end.

(** *** Express *)

Inductive response_body :=
  | Json (v : value)
  | Text (s : string).

Record response := Response {
  status : nat;
  body : response_body
}.

(** body-parser leaves an object in [req.body]: the parsed JSON object, or
    [{}] when the request carries none. *)
Record request := Request {
  req_method : string;
  req_path : string;
  req_body : gmap string value
}.

(** [const { text } = req.body] *)
Definition body_text (b : gmap string value) : value :=
  default VUndefined (b !! "text").

(** A middleware answers the request or hands it on with [next()]. *)
Inductive middleware_result :=
  | Responded (r : response)
  | Next.

End Server.

(** ** The Gemini proxy ([src/backend/server.js]) *)

Module Gemini.
Import JS Eff Server.

(** [v += suffix] for a string [suffix]: string concatenation after
    ToPrimitive, which may throw. *)
Definition plus_string (v : value) (suffix : string) : js_error + value :=
  match to_string v with
  | inr s => inr (VStr (s +:+ suffix))
  | inl e => inl e
  end.

(** Lines 17-19: [let prompt = text] and the two [+=]. *)
Definition buildPrompt (action : string) (text : value) : js_error + value :=
  if decide (action = "shorten")
  then plus_string text " Make it shorter and concise."
  else if decide (action = "lengthen")
  then plus_string text " Make it longer and elaborative."
  else inr text.

(** The [catch (err)] block, lines 30-33. *)
Definition ai_catch (err : js_error) : SM response :=
  console_error [AVal (VStr "AI API Error: "); AErr err];;
  mret (Response 500
          (Json (VObj {[ "error" :=
             VStr ("Failed to process AI request: " +:+ err_message err) ]}))).

(** [app.post("/ai/:action", ...)].  The prompt is built before the
    [try]: when that throws, the handler's promise rejects and no response
    is sent. *)
Definition post_ai (E : env) (action : string) (b : gmap string value)
    : SM response :=
  let text := body_text b in
  prompt ← lift (buildPrompt action text);
  try_catch
    (console_log [AVal (VStr "Sending prompt to Google Generative AI:"); AVal prompt];;
     result ← generateContent E prompt;
     console_log [AVal (VStr "Received result:"); AResult result];;
     output ← response_text result;
     mret (Response 200 (Json (VObj {[ "result" := VStr output ]}))))
    ai_catch.

End Gemini.

(** ** The hardened stub server (second half of [src/unnamed/part_001]) *)

Module Hardened.
Import JS Eff Server.

(** [process.env.NODE_ENV || 'development'] *)
Definition NODE_ENV (E : env) : string :=
  match env_NODE_ENV E with
  | Some s => if decide (s = "") then "development" else s
  | None => "development"
  end.

(** [logger.log]: one line of JSON on the console.  In the object literal
    the spread [...data] comes after [timestamp], [level] and [message] and
    before [env]. *)
Definition logger_log (E : env) (level message : string)
    (data : gmap string value) : SM unit :=
  timestamp ← now_iso E;
  console_log
    [AJsonText
       (VObj (<["env" := VStr (NODE_ENV E)]>
                (data ∪ {[ "timestamp" := VStr timestamp;
                           "level" := VStr level;
                           "message" := VStr message ]})))].

Definition logger_info (E : env) := logger_log E "INFO".
Definition logger_error (E : env) := logger_log E "ERROR".
Definition logger_warn (E : env) := logger_log E "WARN".

(** [res.status(code).json({ error, message, timestamp: new Date().toISOString() })] *)
Definition error_envelope (E : env) (code : nat) (error : string)
    (message : value) : SM response :=
  ts ← now_iso E;
  mret (Response code
          (Json (VObj {[ "error" := VStr error;
                         "message" := message;
                         "timestamp" := VStr ts ]}))).

(** Lines 282-289. *)
Definition get_health (E : env) : SM response :=
  ts ← now_iso E;
  up ← process_uptime E;
  mret (Response 200
          (Json (VObj {[ "status" := VStr "healthy";
                         "timestamp" := VStr ts;
                         "uptime" := up;
                         "environment" := VStr (NODE_ENV E) ]}))).

(** Lines 292-297. *)
Definition get_ready (E : env) : SM response :=
  ts ← now_iso E;
  mret (Response 200
          (Json (VObj {[ "status" := VStr "ready"; "timestamp" := VStr ts ]}))).

(** Lines 300-331.  The third test runs only when [typeof text] is
    ["string"], that is on a [VStr]. *)
Definition validateTextInput (E : env) (req : request) : SM middleware_result :=
  let text := body_text (req_body req) in
  if negb (truthy text) then
    logger_warn E "Missing text field" {[ "path" := VStr (req_path req) ]};;
    r ← error_envelope E 400 "Invalid request" (VStr "Text field is required"); mret (Responded r)
  else
    match text with
    | VStr s =>
        if has_length_0 (trim s) then
          logger_warn E "Empty text provided" {[ "path" := VStr (req_path req) ]};;
          r ← error_envelope E 400 "Invalid request" (VStr "Text cannot be empty"); mret (Responded r)
        else mret Next
    | _ =>
        logger_warn E "Invalid text type"
          {[ "path" := VStr (req_path req); "type" := VStr (typeof text) ]};;
        r ← error_envelope E 400 "Invalid request" (VStr "Text must be a string"); mret (Responded r)
    end.

(** The [catch (error)] block shared, up to the log message, by the two
    routes (lines 349-358 and 377-386). *)
Definition route_catch (E : env) (what : string) (error : js_error) : SM response :=
  logger_error E what
    {[ "error" := VStr (err_message error); "stack" := VStr (err_stack error) ]};;
  error_envelope E 500 "Internal server error"
    (if decide (NODE_ENV E = "development")
     then VStr (err_message error)
     else VStr "An error occurred").

(** The body of the two route handlers, which differ in the prefix of the
    result and in the log message. *)
Definition transform_route (E : env) (prefix processed failed : string)
    (req : request) : SM response :=
  try_catch
    (let text := body_text (req_body req) in
     rendered ← lift (to_string text);
     let result := prefix +:+ rendered in
     inputLength ← length_of text;
     logger_info E processed
       {[ "inputLength" := inputLength;
          "outputLength" := VNum (pretty (utf16_length result)) ]};;
     ts ← now_iso E;
     mret (Response 200
             (Json (VObj {[ "success" := VBool true;
                            "result" := VStr result;
                            "timestamp" := VStr ts ]}))))
    (route_catch E failed).

(** Lines 334-360, the handler after [validateTextInput]. *)
Definition make_shorter_handler (E : env) : request → SM response :=
  transform_route E "Shorter version of: " "Make-shorter request processed"
    "Error in make-shorter endpoint".

(** Lines 362-388. *)
Definition make_longer_handler (E : env) : request → SM response :=
  transform_route E "Longer version of: " "Make-longer request processed"
    "Error in make-longer endpoint".

(** [app.post(path, validateTextInput, handler)] *)
Definition validated (E : env) (handler : request → SM response)
    (req : request) : SM response :=
  v ← validateTextInput E req;
  match v with
  | Responded r => mret r
  | Next => handler req
  end.

Definition post_make_shorter (E : env) : request → SM response :=
  validated E (make_shorter_handler E).
Definition post_make_longer (E : env) : request → SM response :=
  validated E (make_longer_handler E).

(** The 404 handler, lines 391-398. *)
Definition not_found (E : env) (req : request) : SM response :=
  logger_warn E "Not found"
    {[ "method" := VStr (req_method req); "path" := VStr (req_path req) ]};;
  error_envelope E 404 "Not found"
    (VStr ("Endpoint " +:+ req_path req +:+ " not found")).

(** [err.status || 500] *)
Definition error_status (err : js_error) : nat :=
  match err_status err with
  | Some 0 | None => 500
  | Some code => code
  end.

(** The error-handling middleware, lines 401-414. *)
Definition error_middleware (E : env) (req : request) (err : js_error)
    : SM response :=
  logger_error E "Unhandled error"
    {[ "error" := VStr (err_message err); "stack" := VStr (err_stack err);
       "method" := VStr (req_method req); "path" := VStr (req_path req) ]};;
  error_envelope E (error_status err) "Internal server error"
    (if decide (NODE_ENV E = "development")
     then VStr (err_message err)
     else VStr "An error occurred").

(** The request-logging middleware, lines 265-279, around a route: the
    ['finish'] listener logs once the response is out.  An exception of the
    route goes to the error-handling middleware. *)
Definition logged (E : env) (route : request → SM response) (req : request)
    : SM response :=
  startTime ← Date_now E;
  r ← try_catch (route req) (error_middleware E req);
  finishTime ← Date_now E;
  logger_info E "Request completed"
    {[ "method" := VStr (req_method req);
       "path" := VStr (req_path req);
       "status" := VNum (pretty (status r));
       "duration" := VStr (pretty (finishTime - startTime)%Z +:+ "ms") ]};;
  mret r.

(** [process.exit(code)] *)
Definition process_exit (code : Z) : SM unit :=
  modify (set_process (λ p, Process (listening p) (Some code))).

(** [gracefulShutdown], lines 426-439: [server.close] stops the listener;
    its callback and the 30 second timer run later. *)
Definition gracefulShutdown (E : env) : SM unit :=
  logger_info E "Shutting down gracefully..." ∅;;
  modify (set_process (λ p, Process false (exit_code p))).

Definition on_server_closed (E : env) : SM unit :=
  logger_info E "Server closed" ∅;; process_exit 0.

Definition on_forced_shutdown (E : env) : SM unit :=
  logger_error E "Forced shutdown" ∅;; process_exit 1.

(** [logger.debug], line 238:
    [NODE_ENV === 'development' && logger.log('DEBUG', msg, data)]. *)
Definition logger_debug (E : env) (message : string) (data : gmap string value)
    : SM unit :=
  if decide (NODE_ENV E = "development")
  then logger_log E "DEBUG" message data
  else mret tt.

(** [String(reason)] of a rejection reason: [Error.prototype.toString] for
    an error, ToString for any other value. *)
Definition String_of_reason (reason : js_error + value) : js_error + string :=
  match reason with
  | inl e =>
      inr (if decide (err_name e = "") then err_message e
           else if decide (err_message e = "") then err_name e
           else err_name e +:+ ": " +:+ err_message e)
  | inr v => to_string v
  end.

(** The ['uncaughtException'] listener, lines 445-451. *)
Definition on_uncaughtException (E : env) (error : js_error) : SM unit :=
  logger_error E "Uncaught exception"
    {[ "error" := VStr (err_message error); "stack" := VStr (err_stack error) ]};;
  process_exit 1.

(** The ['unhandledRejection'] listener, lines 454-459; [String(promise)]
    is "[object Promise]". *)
Definition on_unhandledRejection (E : env) (reason : js_error + value) : SM unit :=
  rendered ← lift (String_of_reason reason);
  logger_error E "Unhandled rejection"
    {[ "reason" := VStr rendered;
       "promise" := VStr "[object Promise]" ]}.

(** [process.env.REQUEST_TIMEOUT || 30000], line 220: the number 30000
    when the variable is unset or empty, and otherwise the variable's text,
    a string. *)
Definition REQUEST_TIMEOUT (E : env) : value :=
  match env_REQUEST_TIMEOUT E with
  | Some s => if decide (s = "") then VNum "30000" else VStr s
  | None => VNum "30000"
  end.

(** [req.setTimeout(msecs)] and [res.setTimeout(msecs)]: Node checks that
    [msecs] is a number, finite and not negative, and throws otherwise. *)
Definition setTimeout_msecs (E : env) (msecs : value) : SM unit :=
  match msecs with
  | VNum lit =>
      if nonfinite lit || match lit with String "-" _ => true | _ => false end
      then
        let msg := "The value of " +:+ dquote +:+ "msecs" +:+ dquote
                   +:+ " is out of range. It must be a non-negative finite number."
                   +:+ " Received " +:+ lit in
        throw (JsError "RangeError" msg
                 ("RangeError [ERR_OUT_OF_RANGE]: " +:+ msg) None None)
      else mret tt
  | _ =>
      let msg := "The " +:+ dquote +:+ "msecs" +:+ dquote
                 +:+ " argument must be of type number." +:+ received E msecs in
      throw (JsError "TypeError" msg
               ("TypeError [ERR_INVALID_ARG_TYPE]: " +:+ msg) None None)
  end.

(** The request-timeout middleware, lines 258-262. *)
Definition timeout_middleware (E : env) : SM unit :=
  setTimeout_msecs E (REQUEST_TIMEOUT E);;
  setTimeout_msecs E (REQUEST_TIMEOUT E).

(** A request on its way through the app: the timeout middleware, then
    the access log around the route.  What the timeout middleware throws
    goes to the error-handling middleware; the access log, registered after
    it, is not reached then. *)
Definition app (E : env) (route : request → SM response) (req : request)
    : SM response :=
  try_catch (timeout_middleware E;; logged E route req) (error_middleware E req).

End Hardened.

(** ** The minimal stub server ([src/unnamed/part_002]) *)

Module Stub.
Import JS Eff Server.

(** Line 11: [res.send('ok')]. *)
Definition get_health : SM response := mret (Response 200 (Text "ok")).

(** Lines 14-17.  The template literal may throw; nothing in this server
    catches it. *)
Definition post_make_shorter (req : request) : SM response :=
  let text := body_text (req_body req) in
  rendered ← lift (to_string text);
  mret (Response 200
          (Json (VObj {[ "result" := VStr ("Shorter version of: " +:+ rendered) ]}))).

(** Lines 19-22. *)
Definition post_make_longer (req : request) : SM response :=
  let text := body_text (req_body req) in
  rendered ← lift (to_string text);
  mret (Response 200
          (Json (VObj {[ "result" := VStr ("Longer version of: " +:+ rendered) ]}))).

End Stub.

(** ** The client side *)

Module Client.
Import JS Eff.

(** The embedded rich-text widget, as far as the handlers use it.  [S] is
    the widget's state (document and selection together). *)
Class Editor (S : Type) := {
  (** [state.selection.from], [state.selection.to] *)
  selection : S → nat * nat;
  (** [state.doc.textBetween(from, to)] *)
  textBetween : S → nat → nat → string;
  (** [state.selection.$from.parent.textContent] *)
  parent_textContent : S → string;
  (** [state.selection.content().toString()] *)
  selection_content_toString : S → string;
  (** [chain().focus().insertContentAt(range, content).run()] *)
  insertContentAt : S → nat * nat → value → S
}.

(** A POST with a JSON body. *)
Record http_request := HttpPost {
  url : string;
  json : value
}.

Inductive payload :=
  | JsonPayload (v : value)
  | RawPayload (s : string).

Inductive http_outcome :=
  | NetworkFailure (e : js_error)
  | HttpReply (code : nat) (p : payload).

(** The surroundings of one handler run: the network, what the user does to
    the editor while the [k]-th [await] is pending, the configured API URL,
    what the free identifier [url] is bound to, if anything, and the words
    the browser's [JSON.parse] finds for a body that is not JSON. *)
Record client_env (S : Type) := ClientEnv {
  net : http_request → http_outcome;
  meanwhile : nat → S → S;
  env_REACT_APP_API_URL : option string;
  scope_url : option string;
  json_syntax_error : string → string
}.
Arguments json_syntax_error {S}.
Arguments net {S}.
Arguments meanwhile {S}.
Arguments env_REACT_APP_API_URL {S}.
Arguments scope_url {S}.

(** [editor] is [null] until the widget exists; [ui] is the component's
    React state. *)
Record client (S U : Type) := ClientState {
  editor : option S;
  ui : U;
  requests : list http_request;    (* oldest first *)
  cconsole : list console_line;    (* oldest first *)
  awaits : nat
}.
Arguments ClientState {S U}.
Arguments editor {S U}.
Arguments ui {S U}.
Arguments requests {S U}.
Arguments cconsole {S U}.
Arguments awaits {S U}.

Section Primitives.
Context {S U : Type} `{Editor S}.

Definition CM := M (client S U).

Definition client_log (l : console_line) : CM unit :=
  modify (λ w, ClientState (editor w) (ui w) (requests w) (cconsole w ++ [l]) (awaits w)).

Definition set_ui (f : U → U) : CM unit :=
  modify (λ w, ClientState (editor w) (f (ui w)) (requests w) (cconsole w) (awaits w)).

(** [editor.state], of an editor that may still be [null]. *)
Definition editor_state : CM S :=
  λ w, match editor w with
       | Some ed => (inr ed, w)
       | None => (inl (TypeError "Cannot read properties of null (reading 'state')"), w)
       end.

(** An editor command. *)
Definition dispatch (f : S → S) : CM unit :=
  modify (λ w, ClientState (f <$> editor w) (ui w) (requests w) (cconsole w) (awaits w)).

(** The handler is suspended at an [await]: the user may go on editing. *)
Definition suspended (C : client_env S) : CM unit :=
  modify (λ w, ClientState (meanwhile C (awaits w) <$> editor w) (ui w)
                           (requests w) (cconsole w) (Datatypes.S (awaits w))).

(** One request on the wire, and the wait for its outcome. *)
Definition send (C : client_env S) (r : http_request) : CM http_outcome :=
  modify (λ w, ClientState (editor w) (ui w) (requests w ++ [r]) (cconsole w) (awaits w));;
  suspended C;;
  mret (net C r).

(** The error axios rejects with on a reply outside 2xx. *)
Definition axios_error (code : nat) (d : value) : js_error :=
  JsError "AxiosError"
    ("Request failed with status code " +:+ pretty code)
    ("AxiosError: Request failed with status code " +:+ pretty code)
    (Some code) (Some d).

(** What axios makes of a body: the parsed JSON, or the text as it is. *)
Definition axios_data (p : payload) : value :=
  match p with
  | JsonPayload v => v
  | RawPayload s => VStr s
  end.

(** [await axios.post(url, data)], giving [response.data]: axios rejects on
    a status outside 2xx, with the reply's data in [err.response.data]. *)
Definition axios_post (C : client_env S) (u : string) (data : value) : CM value :=
  o ← send C (HttpPost u data);
  match o with
  | NetworkFailure e => throw e
  | HttpReply code p =>
      let d := axios_data p in
      if (200 <=? code) && (code <? 300) then mret d
      else throw (axios_error code d)
  end.

(** [await fetch(url, { method: "POST", body: JSON.stringify(data) })],
    giving the status and the unread body. *)
Definition fetch (C : client_env S) (u : string) (data : value) : CM (nat * payload) :=
  o ← send C (HttpPost u data);
  match o with
  | NetworkFailure e => throw e
  | HttpReply code p => mret (code, p)
  end.

(** [await response.json()] *)
Definition response_json (C : client_env S) (p : payload) : CM value :=
  suspended C;;
  match p with
  | JsonPayload v => mret v
  | RawPayload s => throw (SyntaxError (json_syntax_error C s))
  end.

End Primitives.

End Client.

(** ** [App.js], first variant: the result goes to a panel of its own *)

Module AppPanel.
Import JS Eff Client.

Inductive timer_action := ClearError | ClearSuccess.

(** The [useState] cells, and the timers [setTimeout] has started. *)
Record ui_state := UI {
  transformedText : value;
  loading : bool;
  error : value;                   (* [null] or the message shown *)
  success : bool;
  timers : list (nat * timer_action)
}.

Definition initial_ui : ui_state := UI (VStr "") false VNull false [].

Section Handler.
Context {S : Type} `{Editor S}.

#[local] Abbreviation CM := (@CM S ui_state).

Definition setTransformedText (v : value) : CM unit :=
  set_ui (λ u, UI v (loading u) (error u) (success u) (timers u)).
Definition setLoading (b : bool) : CM unit :=
  set_ui (λ u, UI (transformedText u) b (error u) (success u) (timers u)).
Definition setError (v : value) : CM unit :=
  set_ui (λ u, UI (transformedText u) (loading u) v (success u) (timers u)).
Definition setSuccess (b : bool) : CM unit :=
  set_ui (λ u, UI (transformedText u) (loading u) (error u) b (timers u)).
Definition setTimeout (a : timer_action) (ms : nat) : CM unit :=
  set_ui (λ u, UI (transformedText u) (loading u) (error u) (success u)
                  (timers u ++ [(ms, a)])).

(** [process.env.REACT_APP_API_URL || 'http://localhost:5005'] *)
Definition API_URL (C : client_env S) : string :=
  match env_REACT_APP_API_URL C with
  | Some u => if decide (u = "") then "http://localhost:5005" else u
  | None => "http://localhost:5005"
  end.

(** [err.response?.data?.message || err.message || 'Failed to process text'] *)
Definition errorMsg (err : js_error) : value :=
  let m := match err_response_data err with
           | Some d => opt_prop d "message"
           | None => VUndefined
           end in
  if truthy m then m
  else if truthy (VStr (err_message err)) then VStr (err_message err)
  else VStr "Failed to process text".

(** Lines 24-55. *)
Definition handleAIAction (C : client_env S) (action : string) : CM unit :=
  w ← get;
  match editor w with
  | None => mret tt
  | Some ed =>
      (* [textContent] is a string, so [|| ''] leaves it as it is *)
      let selectedText := parent_textContent ed in
      if negb (truthy (VStr selectedText)) || has_length_0 (trim selectedText)
      then
        setError (VStr "Please select text to transform");;
        setTimeout ClearError 3000
      else
        setLoading true;;
        setError VNull;;
        setSuccess false;;
        finally
          (try_catch
             (let endpoint := if decide (action = "shorter")
                              then "/api/make-shorter" else "/api/make-longer" in
              data ← axios_post C (API_URL C +:+ endpoint)
                       (VObj {[ "text" := VStr selectedText ]});
              result ← prop data "result";
              if truthy result then
                setTransformedText result;;
                setSuccess true;;
                setTimeout ClearSuccess 3000
              else mret tt)
             (λ err,
                setError (errorMsg err);;
                client_log (ConsoleError [AVal (VStr "AI action failed:"); AErr err])))
          (setLoading false)
  end.

End Handler.

End AppPanel.

(** ** [App.js], second variant: axios and [insertContentAt] *)

Module AppAxios.
Import JS Eff Client.

Section Handler.
Context {S : Type} `{Editor S}.

(** The only [useState] cell is [transformedText]. *)
#[local] Abbreviation CM := (@CM S value).

(** The identifier [url]: the lines that would declare it are commented
    out, so it resolves in the enclosing scope or not at all. *)
Definition lookup_url (C : client_env S) : CM string :=
  match scope_url C with
  | Some u => mret u
  | None => throw (ReferenceError "url is not defined")
  end.

(** Lines 320-334. *)
Definition handleAIAction (C : client_env S) (action : string) : CM unit :=
  ed ← editor_state;
  let selectedText := selection_content_toString ed in
  if negb (truthy (VStr selectedText)) then mret tt
  else
    try_catch
      (u ← lookup_url C;
       data ← axios_post C u (VObj {[ "text" := VStr selectedText ]});
       result ← destructure "response.data" data "result";
       now ← editor_state;
       dispatch (λ s, insertContentAt s (selection now) result))
      (λ error,
         client_log (ConsoleError [AVal (VStr "AI action failed:"); AErr error])).

End Handler.

End AppAxios.

(** ** [App.js] of [src/unnamed/part_001]: fetch and the bubble menu *)

Module AppBubble.
Import JS Eff Client.

Section Handler.
Context {S : Type} `{Editor S}.

(** None of the component's [useState] cells is touched by the handler. *)
#[local] Abbreviation CM := (@CM S unit).

(** Lines 74-111. *)
Definition handleAction (C : client_env S) (action : string) : CM unit :=
  ed ← editor_state;
  let selectedText := textBetween ed (fst (selection ed)) (snd (selection ed)) in
  if negb (truthy (VStr (trim selectedText))) then
    client_log (ConsoleWarn [AVal (VStr "No text selected.")])
  else
    try_catch
      (response ← fetch C ("http://localhost:5001/ai/" +:+ action)
                    (VObj {[ "text" := VStr selectedText ]});
       let '(code, p) := response in
       if negb ((200 <=? code) && (code <? 300)) then
         client_log (ConsoleError
           [AVal (VStr ("API request failed with status: " +:+ pretty code))])
       else
         data ← response_json C p;
         client_log (ConsoleLog [AVal (VStr "Response from API:"); AVal data]);;
         if truthy data && truthy (get_field data "result") then
           now ← editor_state;
           dispatch (λ s, insertContentAt s (selection now) (get_field data "result"))
         else
           client_log (ConsoleError
             [AVal (VStr "Unexpected API response structure:"); AVal data]))
      (λ err, client_log (ConsoleError [AVal (VStr "API Error:"); AErr err])).

End Handler.

End AppBubble.

(** ** A plain-text stand-in for the editor widget

    One paragraph of text with a selection [from, to): enough to run the
    client handlers on concrete documents. *)

Module PlainText.
Import JS Client.

Record buffer := Buffer {
  text : string;
  sel_from : nat;
  sel_to : nat
}.

Definition slice (s : string) (i j : nat) : string :=
  String.substring i (j - i) s.

(** The content is put in as plain text (the widget itself reads a string
    as HTML). *)
Definition replace_range (b : buffer) (r : nat * nat) (v : value) : buffer :=
  let s := default "" (toString v) in
  let stop := r.1 + String.length s in
  Buffer (slice (text b) 0 r.1 +:+ s +:+
          slice (text b) r.2 (String.length (text b)))
         stop stop.

(** The way ProseMirror prints the slice of a selection: the empty slice
    for an empty selection, and otherwise the selected text inside its
    paragraph, open on both sides. *)
Definition slice_toString (b : buffer) : string :=
  if sel_from b <? sel_to b
  then "<paragraph(" +:+ json_quote (slice (text b) (sel_from b) (sel_to b))
       +:+ ")>(1,1)"
  else "<>(0,0)".

#[global] Instance plain_editor : Editor buffer := {|
  selection b := (sel_from b, sel_to b);
  textBetween b i j := slice (text b) i j;
  parent_textContent b := text b;
  selection_content_toString b := slice_toString b;
  insertContentAt := replace_range
|}.

(** Nobody touches the editor while a request is pending, and the network
    answers every request with [o]. *)
Definition quiet (o : http_outcome) : client_env buffer :=
  ClientEnv buffer (λ _, o) (λ _ b, b) None None (λ _, "Unexpected end of JSON input").

(** A component that has just mounted around [b]. *)
Definition mounted {U} (b : buffer) (u : U) : client buffer U :=
  ClientState (Some b) u [] [] 0.

End PlainText.

(** ** Observations of a client run *)

Module ObserveClient.
Import JS Client.

(** The request did not come back as a 2xx reply. *)
Definition failed (o : http_outcome) : Prop :=
  match o with
  | NetworkFailure _ => True
  | HttpReply code _ => (200 <=? code) && (code <? 300) = false
  end.

(** The request came back 2xx with a JSON body whose [result] is the
    non-empty [result]. *)
Definition succeeded_with (o : http_outcome) (result : value) : Prop :=
  ∃ code data, o = HttpReply code (JsonPayload data)
               ∧ (200 <=? code) && (code <? 300) = true
               ∧ get_field data "result" = result
               ∧ truthy result = true.

(** The request the panel variant sends for [action] on the text [t]. *)
Definition panel_request {S} (C : client_env S) (action t : string) : http_request :=
  HttpPost (AppPanel.API_URL C +:+
              (if decide (action = "shorter")
               then "/api/make-shorter" else "/api/make-longer"))
           (VObj {[ "text" := VStr t ]}).

(** The request the bubble-menu variant sends. *)
Definition bubble_request (action t : string) : http_request :=
  HttpPost ("http://localhost:5001/ai/" +:+ action) (VObj {[ "text" := VStr t ]}).

(** Something was shown or logged between [w] and [w']. *)
Definition surfaced {S U} (w w' : client S U) : Prop :=
  ui w' ≠ ui w ∨ cconsole w' ≠ cconsole w.

End ObserveClient.

(** ** Observations and test doubles used in the statements *)

Module Observe.
Import JS Eff Server.

(** What a client reads off a JSON response: [response.data[k]]. *)
Definition json_field (k : string) (r : response) : value :=
  match body r with
  | Json v => get_field v k
  | Text _ => VUndefined
  end.

(** The keys of the JSON object sent, its shape. *)
Definition json_keys (r : response) : gset string :=
  match body r with
  | Json (VObj fields) => dom fields
  | _ => ∅
  end.

(** The middleware answered 400 "Invalid request" with message [msg]. *)
Definition rejected (out : js_error + middleware_result) (msg : string) : Prop :=
  ∃ r, out = inr (Responded r) ∧ status r = 400
       ∧ json_field "error" r = VStr "Invalid request"
       ∧ json_field "message" r = VStr msg.

(** A body whose text is missing, not a string, or blank after trimming. *)
Definition invalid_text (b : gmap string value) : Prop :=
  b !! "text" = None
  ∨ (∃ v, b !! "text" = Some v ∧ typeof v ≠ "string")
  ∨ (∃ s, b !! "text" = Some (VStr s) ∧ blank s = true).

(** [sub] occurs in [s]. *)
Definition contains (s sub : string) : Prop :=
  ∃ pre post, s = pre +:+ sub +:+ post.

(** Between [w] and [w'] at most the clock has been read: no provider
    call, no console line, the same process state. *)
Definition only_clock_read (w w' : world) : Prop :=
  provider_calls w' = provider_calls w
  ∧ console w' = console w
  ∧ process w' = process w.

(** The world after [n] calls in a row. *)
Definition after_calls {A} (n : nat) (m : SM A) (w : world) : world :=
  Nat.iter n (λ w, (m w).2) w.

(** The way Node words a short string it received where it wanted
    another type. *)
Definition received_type (v : value) : string :=
  match v with
  | VStr s => " Received type string ('" +:+ s +:+ "')"
  | _ => " Received " +:+ default "" (toString v)
  end.

(** A provider stub that answers every prompt alike, with a clock that
    ticks once per reading. *)
Definition stub_env (mode : option string) (answer : provider_outcome) : env :=
  Env mode (λ _, answer) (λ k, Z.of_nat k) (λ t, pretty t) (λ t, pretty t) None
      received_type.

(** The same surroundings with [REQUEST_TIMEOUT] set to [s]. *)
Definition with_REQUEST_TIMEOUT (s : string) (E : env) : env :=
  Env (env_NODE_ENV E) (provider E) (clock E) (toISOString E) (uptime_text E)
      (Some s) (received E).

(** [REQUEST_TIMEOUT] is not set in the environment, or set to nothing. *)
Definition timeout_unset (E : env) : Prop :=
  env_REQUEST_TIMEOUT E = None ∨ env_REQUEST_TIMEOUT E = Some "".

Definition fresh_world : world := World [] [] 0 (Process true None).

End Observe.

(** ** Reading the console, and the servers behind the clients *)

Module Trace.
Import JS Eff Server.

(** The object one reads back from a line of the structured logger, that
    is from the JSON text printed; empty for any other console line. *)
Definition json_log (l : console_line) : gmap string value :=
  match l with
  | ConsoleLog [AJsonText (VObj fields)] => omap json_member fields
  | _ => ∅
  end.

(** Between [w] and [w'] the provider was not called and the process state
    did not change. *)
Definition server_frame (w w' : world) : Prop :=
  provider_calls w' = provider_calls w ∧ process w' = process w.

End Trace.

Module Wire.
Import JS Eff Server Client.

(** What the HTTP library of the client sees of a response.  The bodies
    the servers send hold strings and booleans at their keys, which
    [JSON.stringify] and [JSON.parse] carry over unchanged. *)
Definition reply_of (r : response) : http_outcome :=
  HttpReply (status r)
    (match body r with
     | Json v => JsonPayload v
     | Text s => RawPayload s
     end).

Definition served (out : (js_error + response) * world) (otherwise : http_outcome)
    : http_outcome :=
  match out.1 with
  | inr r => reply_of r
  | inl _ => otherwise
  end.

(** A network with the Gemini proxy listening on port 5001, in state [ws]:
    the two URLs the buttons of the bubble menu post to reach its route
    [/ai/:action]; every other request is answered by [elsewhere]. *)
Definition gemini_net (E : env) (ws : world)
    (elsewhere : http_request → http_outcome) : http_request → http_outcome :=
  λ r, match json r with
       | VObj fields =>
           if decide (url r = "http://localhost:5001/ai/shorten")
           then served (Gemini.post_ai E "shorten" fields ws) (elsewhere r)
           else if decide (url r = "http://localhost:5001/ai/lengthen")
           then served (Gemini.post_ai E "lengthen" fields ws) (elsewhere r)
           else elsewhere r
       | _ => elsewhere r
       end.

(** A network with the hardened server reachable at [base], in state
    [ws]: its two transform routes, reached through the app. *)
Definition hardened_net (E : env) (ws : world) (base : string)
    (elsewhere : http_request → http_outcome) : http_request → http_outcome :=
  λ r, match json r with
       | VObj fields =>
           if decide (url r = base +:+ "/api/make-shorter")
           then served (Hardened.app E (Hardened.post_make_shorter E)
                          (Request "POST" "/api/make-shorter" fields) ws)
                       (elsewhere r)
           else if decide (url r = base +:+ "/api/make-longer")
           then served (Hardened.app E (Hardened.post_make_longer E)
                          (Request "POST" "/api/make-longer" fields) ws)
                       (elsewhere r)
           else elsewhere r
       | _ => elsewhere r
       end.

End Wire.

Example replace_range_ex :
  PlainText.replace_range (PlainText.Buffer "Hello world" 0 5) (0, 5) (JS.VStr "Hi")
  = PlainText.Buffer "Hi world" 2 2.
Proof. reflexivity. Qed.

(** * Verification *)

(** ** Facts about the primitives *)

Section JSFacts.
Import JS.

Lemma trim_empty : trim "" = "".
Proof. reflexivity. Qed.

Lemma blank_empty : blank "" = true.
Proof. reflexivity. Qed.

(** A string that is not blank is truthy. *)
Lemma not_blank_truthy (s : string) : blank s = false → truthy (VStr s) = true.
Proof.
  intros Hb. simpl. destruct (bool_decide_reflect (s = "")) as [->|]; [|done].
  by rewrite blank_empty in Hb.
Qed.

Lemma typeof_string (v : value) : typeof v = "string" ↔ ∃ s, v = VStr s.
Proof.
  split; [|by intros [s ->]].
  destruct v; simpl; try discriminate; eauto.
Qed.

Example trim_both_ends : trim (String "009" "  Hello world  ") = "Hello world".
Proof. reflexivity. Qed.

(** A no-break space, U+00A0, is two bytes. *)
Example trim_nbsp :
  trim (String (ascii_of_nat 194) (String (ascii_of_nat 160) "a ")) = "a".
Proof. reflexivity. Qed.

Example blank_spaces : blank "   " = true.
Proof. reflexivity. Qed.

Example toString_array :
  toString (VArr [VNum "1"; VNull; VStr "a"; VObj ∅]) = Some "1,,a,[object Object]".
Proof. reflexivity. Qed.

(** An object with a key [toString] of its own does not convert, nor does
    an array that holds one. *)
Example toString_throws :
  toString (VObj {[ "toString" := VNum "1" ]}) = None
  ∧ toString (VArr [VStr "a"; VObj {[ "toString" := VNull ]}]) = None.
Proof. split; reflexivity. Qed.

Example jsonify_members :
  jsonify (VObj {[ "a" := VUndefined; "b" := VArr [VUndefined; VNum "NaN"; VNum "7"] ]})
  = VObj {[ "b" := VArr [VNull; VNull; VNum "7"] ]}.
Proof. reflexivity. Qed.

Example json_quote_escapes :
  json_quote ("say " +:+ dquote +:+ "hi" +:+ dquote)
  = dquote +:+ "say \" +:+ dquote +:+ "hi\" +:+ dquote +:+ dquote.
Proof. reflexivity. Qed.

(** The decimal text of a natural number starts with a digit, so it is the
    text of a finite number. *)
Lemma pretty_N_go_digit (x : N) (s : string) :
  (0 < x)%N → ∃ c rest, pretty_N_go x s = String c rest ∧ Ascii.is_nat c ≠ None.
Proof.
  revert s. induction (N.lt_wf_0 x) as [x _ IH]. intros s Hx.
  rewrite pretty_N_go_step by done.
  destruct (decide (x `div` 10 = 0)%N) as [->|Hd].
  - rewrite pretty_N_go_0. do 2 eexists. split; [reflexivity|].
    unfold pretty_N_char. by repeat case_match.
  - apply IH; [|by apply N.neq_0_lt_0]. by apply N.div_lt.
Qed.

Lemma pretty_nat_finite (n : nat) : nonfinite (pretty n) = false.
Proof.
  unfold nonfinite. apply bool_decide_false.
  assert (∃ c rest, pretty n = String c rest ∧ Ascii.is_nat c ≠ None)
    as (c & rest & Heq & Hc).
  { unfold pretty, pretty_nat, pretty, pretty_N. case_decide.
    - by exists "0"%char, "".
    - apply pretty_N_go_digit. lia. }
  rewrite Heq. intros Hin.
  repeat (apply elem_of_cons in Hin as [Hin|Hin]; [by simplify_eq|]).
  by apply elem_of_nil in Hin.
Qed.

Lemma jsonify_pretty (n : nat) : jsonify (VNum (pretty n)) = VNum (pretty n).
Proof. simpl. by rewrite pretty_nat_finite. Qed.

End JSFacts.

(** ** Running computations *)

(** Unfolds the monad down to the world transformer it denotes. *)
Ltac unfold_eff :=
  unfold mbind, mret, Eff.M_bind, Eff.M_ret, Eff.bind, Eff.ret, Eff.throw,
    Eff.try_catch, Eff.finally, Eff.modify, Eff.get in *.

Section ServerFacts.
Import JS Server.

Lemma body_text_present (b : gmap string value) (v : value) :
  b !! "text" = Some v → body_text b = v.
Proof. unfold body_text. by intros ->. Qed.

Lemma body_text_absent (b : gmap string value) :
  b !! "text" = None → body_text b = VUndefined.
Proof. unfold body_text. by intros ->. Qed.

End ServerFacts.

(** ** The Gemini proxy *)

Section GeminiProofs.
Import JS Eff Server Gemini Observe.

Ltac unfold_post_ai :=
  unfold post_ai, ai_catch, generateContent, response_text, console_log,
    console_error, console_write, lift;
  unfold_eff.

(** Once the prompt is built, the handler hands it to the provider exactly
    once, whatever the provider answers. *)
Lemma post_ai_calls (E : env) (action : string) (b : gmap string value)
    (w : world) (prompt : value) :
  buildPrompt action (body_text b) = inr prompt →
  provider_calls (post_ai E action b w).2 = provider_calls w ++ [prompt].
Proof.
  intros Hp. unfold_post_ai. rewrite Hp. simpl.
  destruct (provider E _) as [e|[e|s]]; reflexivity.
Qed.

(** When the provider gives text, the handler answers 200 with that text. *)
Lemma post_ai_success (E : env) (action : string) (b : gmap string value)
    (w : world) (prompt : value) (R : string) :
  buildPrompt action (body_text b) = inr prompt →
  provider E prompt = Resolves (inr R) →
  (post_ai E action b w).1
  = inr (Response 200 (Json (VObj {[ "result" := VStr R ]}))).
Proof.
  intros Hp HR. unfold_post_ai. rewrite Hp. simpl. by rewrite HR.
Qed.

(** When the provider fails, either way, the handler answers 500 and puts
    the error's message into the body. *)
Lemma post_ai_failure (E : env) (action : string) (b : gmap string value)
    (w : world) (prompt : value) (e : js_error) :
  buildPrompt action (body_text b) = inr prompt →
  provider E prompt = Rejects e ∨ provider E prompt = Resolves (inl e) →
  (post_ai E action b w).1
  = inr (Response 500
           (Json (VObj {[ "error" :=
              VStr ("Failed to process AI request: " +:+ err_message e) ]}))).
Proof.
  intros Hp HR. unfold_post_ai. rewrite Hp. simpl. by destruct HR as [-> | ->].
Qed.

(** When the prompt cannot be built, the handler throws before its [try]:
    nothing is sent, logged or asked of the provider. *)
Lemma post_ai_throws (E : env) (action : string) (b : gmap string value)
    (w : world) (e : js_error) :
  buildPrompt action (body_text b) = inl e →
  post_ai E action b w = (inl e, w).
Proof. intros Hp. unfold_post_ai. by rewrite Hp. Qed.

(** The prompt for a text that converts to a string. *)
Lemma buildPrompt_convertible (action : string) (v : value) (s : string) :
  toString v = Some s →
  buildPrompt action v
  = inr (if decide (action = "shorten")
         then VStr (s +:+ " Make it shorter and concise.")
         else if decide (action = "lengthen")
         then VStr (s +:+ " Make it longer and elaborative.")
         else v).
Proof.
  intros Hs. unfold buildPrompt, plus_string, to_string. rewrite Hs.
  by repeat case_decide.
Qed.

(** C2. [buildPrompt] appends " Make it shorter and concise." for
    [shorten] and " Make it longer and elaborative." for [lengthen], to any
    text, and gives the text back untouched for every other action. *)
Theorem buildPrompt_spec (text : string) (action : string) :
  buildPrompt "shorten" (VStr text)
    = inr (VStr (text +:+ " Make it shorter and concise."))
  ∧ buildPrompt "lengthen" (VStr text)
    = inr (VStr (text +:+ " Make it longer and elaborative."))
  ∧ (action ≠ "shorten" → action ≠ "lengthen" →
     buildPrompt action (VStr text) = inr (VStr text)).
Proof.
  split; [reflexivity|]. split; [reflexivity|].
  intros H1 H2. unfold buildPrompt.
  destruct (decide (action = "shorten")); [done|].
  by destruct (decide (action = "lengthen")).
Qed.

Lemma buildPrompt_spec_witness :
  buildPrompt "shorten" (VStr "Hello world")
    = inr (VStr "Hello world Make it shorter and concise.")
  ∧ buildPrompt "lengthen" (VStr "Hello world")
    = inr (VStr "Hello world Make it longer and elaborative.")
  ∧ buildPrompt "translate" (VStr "Hello world") = inr (VStr "Hello world").
Proof.
  destruct (buildPrompt_spec "Hello world" "translate") as (H1 & H2 & H3).
  split; [exact H1|]. split; [exact H2|].
  apply H3; discriminate.
Defined.

(** C1. A well-formed request (non-blank string text, action [shorten] or
    [lengthen]) makes exactly one provider call, whose prompt is the text
    followed by the action's suffix, whatever was asked before and whatever
    the provider answers: a failure is answered 500 and not tried again.
    When the provider returns text [R] the response is [{ result: R }]. *)
Theorem gemini_well_formed_request (E : env) (action T : string)
    (b : gmap string value) (w : world) (suffix : string) :
  b !! "text" = Some (VStr T) →
  blank T = false →
  (action = "shorten" ∧ suffix = " Make it shorter and concise."
   ∨ action = "lengthen" ∧ suffix = " Make it longer and elaborative.") →
  provider_calls (post_ai E action b w).2 = provider_calls w ++ [VStr (T +:+ suffix)]
  ∧ (∀ R, provider E (VStr (T +:+ suffix)) = Resolves (inr R) →
     (post_ai E action b w).1
     = inr (Response 200 (Json (VObj {[ "result" := VStr R ]}))))
  ∧ (∀ e, provider E (VStr (T +:+ suffix)) = Rejects e
          ∨ provider E (VStr (T +:+ suffix)) = Resolves (inl e) →
     ∃ r, (post_ai E action b w).1 = inr r ∧ status r = 500).
Proof.
  intros Hb _ Ha.
  assert (buildPrompt action (body_text b) = inr (VStr (T +:+ suffix))) as Hp.
  { rewrite (body_text_present _ _ Hb).
    destruct Ha as [[-> ->]|[-> ->]]; reflexivity. }
  split_and!.
  - by apply post_ai_calls.
  - intros R HR. by apply (post_ai_success E action b w _ R Hp).
  - intros e He. eexists. by rewrite (post_ai_failure E action b w _ e Hp He).
Qed.

Lemma gemini_well_formed_request_witness :
  let E := stub_env None (Resolves (inr "Hi.")) in
  let b : gmap string value := {[ "text" := VStr "Hello world" ]} in
  provider_calls (post_ai E "shorten" b fresh_world).2
    = [VStr "Hello world Make it shorter and concise."]
  ∧ (post_ai E "shorten" b fresh_world).1
    = inr (Response 200 (Json (VObj {[ "result" := VStr "Hi." ]}))).
Proof.
  intros E b.
  destruct (gemini_well_formed_request E "shorten" "Hello world" b
              fresh_world " Make it shorter and concise.") as (H1 & H2 & _).
  - reflexivity.
  - reflexivity.
  - left. split; reflexivity.
  - split; [exact H1 | apply H2; reflexivity].
Defined.

(** C9. A request without a [text] field is not rejected: the provider is
    called with "undefined" followed by the suffix, and the response is the
    provider's 200 or the handler's 500, never a validation error. *)
Theorem gemini_missing_text (E : env) (b : gmap string value) (w : world) :
  b !! "text" = None →
  provider_calls (post_ai E "shorten" b w).2
    = provider_calls w ++ [VStr "undefined Make it shorter and concise."]
  ∧ provider_calls (post_ai E "lengthen" b w).2
    = provider_calls w ++ [VStr "undefined Make it longer and elaborative."]
  ∧ ∀ action, ∃ r, (post_ai E action b w).1 = inr r ∧ status r ≠ 400.
Proof.
  intros Hb. pose proof (body_text_absent _ Hb) as Ht.
  split_and!.
  - apply post_ai_calls. by rewrite Ht.
  - apply post_ai_calls. by rewrite Ht.
  - intros action.
    pose proof (buildPrompt_convertible action VUndefined "undefined" eq_refl) as Hp.
    rewrite <- Ht in Hp at 1.
    match type of Hp with _ = inr ?p => set (prompt := p) in * end.
    destruct (provider E prompt) as [e|[e|R]] eqn:HP.
    + eexists. split; [apply (post_ai_failure _ _ _ _ _ e Hp); by left|]. done.
    + eexists. split; [apply (post_ai_failure _ _ _ _ _ e Hp); by right|]. done.
    + eexists. split; [by apply (post_ai_success _ _ _ _ _ R Hp)|]. done.
Qed.

(** An action that is neither [shorten] nor [lengthen] sends the text as it
    is. *)
Example gemini_unknown_action :
  provider_calls
    (post_ai (stub_env None (Resolves (inr "Hi."))) "translate"
       {[ "text" := VStr "Hello world" ]} fresh_world).2
  = [VStr "Hello world"].
Proof. reflexivity. Qed.

(** A text that does not convert makes the handler throw outside its
    [try]. *)
Example gemini_unconvertible :
  post_ai (stub_env None (Resolves (inr "Hi."))) "shorten"
    {[ "text" := VObj {[ "toString" := VNum "1" ]} ]} fresh_world
  = (inl (TypeError "Cannot convert object to primitive value"), fresh_world).
Proof. reflexivity. Qed.

Lemma gemini_missing_text_witness :
  provider_calls
    (post_ai (stub_env None (Resolves (inr "Hi."))) "shorten" ∅ fresh_world).2
  = [VStr "undefined Make it shorter and concise."].
Proof.
  destruct (gemini_missing_text (stub_env None (Resolves (inr "Hi."))) ∅ fresh_world)
    as (H1 & _).
  - reflexivity.
  - exact H1.
Defined.

End GeminiProofs.

(** ** The hardened server *)

Section HardenedProofs.
Import JS Eff Server Hardened Observe.

Ltac unfold_hardened :=
  unfold validated, validateTextInput, transform_route, route_catch,
    error_middleware, not_found, get_health, get_ready, error_envelope,
    logger_warn, logger_info, logger_error, logger_log, now_iso,
    process_uptime, Date_now, console_log, console_error, console_write,
    length_of, prop in *;
  unfold_eff.

(** What every rejection of the middleware looks like. *)
Lemma validate_rejects_falsy (E : env) (req : request) (w : world) :
  truthy (body_text (req_body req)) = false →
  rejected (validateTextInput E req w).1 "Text field is required".
Proof.
  intros Ht. unfold_hardened. rewrite Ht. simpl.
  eexists. split; [reflexivity|]. repeat split.
Qed.

Lemma validate_rejects_non_string (E : env) (req : request) (w : world) :
  truthy (body_text (req_body req)) = true →
  typeof (body_text (req_body req)) ≠ "string" →
  rejected (validateTextInput E req w).1 "Text must be a string".
Proof.
  intros Ht Hty. unfold_hardened. rewrite Ht. simpl.
  destruct (body_text (req_body req)) eqn:Hv; simpl in *; try done;
    (eexists; split; [reflexivity|]; repeat split).
Qed.

Lemma validate_rejects_blank (E : env) (req : request) (w : world) (s : string) :
  body_text (req_body req) = VStr s → s ≠ "" → blank s = true →
  rejected (validateTextInput E req w).1 "Text cannot be empty".
Proof.
  intros Hv Hs Hb. unfold_hardened. rewrite Hv. simpl.
  rewrite bool_decide_false by done. simpl.
  unfold blank in Hb. rewrite Hb.
  eexists. split; [reflexivity|]. repeat split.
Qed.

Lemma validate_passes (E : env) (req : request) (w : world) (s : string) :
  body_text (req_body req) = VStr s → blank s = false →
  validateTextInput E req w = (inr Next, w).
Proof.
  intros Hv Hb. unfold_hardened. rewrite Hv.
  rewrite (not_blank_truthy _ Hb). simpl.
  unfold blank in Hb. by rewrite Hb.
Qed.

(** Whatever the body, the middleware answers 400 or hands on; it never
    throws, and it leaves the provider and the process alone. *)
Lemma validate_frame (E : env) (req : request) (w : world) :
  provider_calls (validateTextInput E req w).2 = provider_calls w
  ∧ process (validateTextInput E req w).2 = process w.
Proof.
  unfold_hardened.
  destruct (truthy _); simpl; [|done].
  destruct (body_text _); simpl; try done.
  by destruct (has_length_0 _).
Qed.

Lemma invalid_text_rejected (E : env) (req : request) (w : world) :
  invalid_text (req_body req) →
  ∃ msg, rejected (validateTextInput E req w).1 msg.
Proof.
  intros [Hb|[(v & Hb & Hty)|(s & Hb & Hbl)]].
  - eexists. apply validate_rejects_falsy. by rewrite (body_text_absent _ Hb).
  - destruct (truthy (body_text (req_body req))) eqn:Ht.
    + eexists. apply validate_rejects_non_string; [done|].
      by rewrite (body_text_present _ _ Hb).
    + eexists. by apply validate_rejects_falsy.
  - destruct (decide (s = "")) as [->|Hs].
    + eexists. apply validate_rejects_falsy.
      by rewrite (body_text_present _ _ Hb).
    + eexists. eapply validate_rejects_blank; [|done..].
      by apply body_text_present.
Qed.

(** C3, as the code has it.  The middleware answers 400 "Invalid request"
    with "Text field is required" when [text] is absent or falsy ([null],
    [false], [0], the empty string), with "Text must be a string" when it
    is truthy and not a string, with "Text cannot be empty" when it is a
    non-empty string that trims to nothing; any other body is handed on
    with nothing logged and nothing changed. *)
Theorem validateTextInput_classification (E : env) (req : request) (w : world) :
  let text := body_text (req_body req) in
  let out := validateTextInput E req w in
  (req_body req !! "text" = None → rejected out.1 "Text field is required")
  ∧ (truthy text = false → rejected out.1 "Text field is required")
  ∧ (truthy text = true → typeof text ≠ "string" →
     rejected out.1 "Text must be a string")
  ∧ (∀ s, text = VStr s → s ≠ "" → blank s = true →
     rejected out.1 "Text cannot be empty")
  ∧ (∀ s, text = VStr s → blank s = false → out = (inr Next, w)).
Proof.
  intros text out. subst text out. split_and!.
  - intros Hb. apply validate_rejects_falsy. by rewrite (body_text_absent _ Hb).
  - apply validate_rejects_falsy.
  - apply validate_rejects_non_string.
  - intros s. apply validate_rejects_blank.
  - intros s. apply validate_passes.
Qed.

Lemma validateTextInput_classification_witness :
  let E := stub_env None (Resolves (inr "")) in
  let at_body b := (validateTextInput E (Request "POST" "/api/make-shorter" b) fresh_world) in
  rejected (at_body ∅).1 "Text field is required"
  ∧ rejected (at_body {[ "text" := VStr "" ]}).1 "Text field is required"
  ∧ rejected (at_body {[ "text" := VNum "42" ]}).1 "Text must be a string"
  ∧ rejected (at_body {[ "text" := VStr "   " ]}).1 "Text cannot be empty"
  ∧ at_body {[ "text" := VStr "Hello world" ]} = (inr Next, fresh_world).
Proof.
  intros E at_body. subst at_body. split_and!.
  - apply (validateTextInput_classification E (Request "POST" "/api/make-shorter" ∅)).
    reflexivity.
  - apply (validateTextInput_classification E
             (Request "POST" "/api/make-shorter" {[ "text" := VStr "" ]})).
    reflexivity.
  - apply (validateTextInput_classification E
             (Request "POST" "/api/make-shorter" {[ "text" := VNum "42" ]}));
      [reflexivity | discriminate].
  - apply (validateTextInput_classification E
             (Request "POST" "/api/make-shorter" {[ "text" := VStr "   " ]})
             fresh_world) with (s := "   "); [reflexivity | discriminate | reflexivity].
  - apply (validateTextInput_classification E
             (Request "POST" "/api/make-shorter" {[ "text" := VStr "Hello world" ]})
             fresh_world) with (s := "Hello world"); reflexivity.
Defined.

(** C3 as stated fails twice: the empty string is present, a string and
    of length zero after trimming, yet it is answered "Text field is
    required", not "Text cannot be empty"; and [0] is present and not a
    string, yet it gets the same answer, not "Text must be a string". *)
Lemma validateTextInput_counterexample :
  let E := stub_env None (Resolves (inr "")) in
  let at_body b := (validateTextInput E (Request "POST" "/api/make-shorter" b) fresh_world) in
  blank "" = true
  ∧ rejected (at_body {[ "text" := VStr "" ]}).1 "Text field is required"
  ∧ ¬ rejected (at_body {[ "text" := VStr "" ]}).1 "Text cannot be empty"
  ∧ typeof (VNum "0") ≠ "string"
  ∧ rejected (at_body {[ "text" := VNum "0" ]}).1 "Text field is required"
  ∧ ¬ rejected (at_body {[ "text" := VNum "0" ]}).1 "Text must be a string".
Proof.
  intros E at_body. subst at_body. simpl.
  split; [reflexivity|].
  split; [by apply validate_rejects_falsy|].
  split.
  { intros (r & Hr & _ & _ & Hm). vm_compute in Hr. injection Hr as <-.
    vm_compute in Hm. discriminate Hm. }
  split; [discriminate|].
  split; [by apply validate_rejects_falsy|].
  intros (r & Hr & _ & _ & Hm). vm_compute in Hr. injection Hr as <-.
  vm_compute in Hm. discriminate Hm.
Qed.

(** A route behind the middleware answers an invalid body with the
    middleware's 400 and does not run its handler, whatever the handler
    would have done. *)
Lemma validated_rejects (E : env) (handler : request → SM response)
    (req : request) (w : world) :
  invalid_text (req_body req) →
  ∃ r, (validated E handler req w).1 = inr r
       ∧ status r = 400
       ∧ json_field "error" r = VStr "Invalid request"
       ∧ provider_calls (validated E handler req w).2 = provider_calls w.
Proof.
  intros Hinv.
  destruct (invalid_text_rejected E req w Hinv) as (msg & r & Hr & Hs & He & _).
  pose proof (validate_frame E req w) as [Hcalls _].
  exists r. unfold validated. unfold_eff.
  destruct (validateTextInput E req w) as [out w'] eqn:Hv. simpl in *.
  subst out. done.
Qed.

(** *** Through the app *)

(** The access-log middleware always answers. *)
Lemma logged_answers (E : env) (route : request → SM response) (req : request)
    (w : world) :
  ∃ r w', logged E route req w = (inr r, w').
Proof.
  unfold_hardened. unfold logged, logger_info, logger_log, now_iso, Date_now,
    console_log, console_write. unfold_eff. cbn.
  match goal with |- context [route req ?w0] => destruct (route req w0) as [[e|r0] w'] end;
    cbn; eauto.
Qed.

(** A route that returns is sent as it is, and what it did to the provider
    is all that was done. *)
Lemma logged_returns (E : env) (route : request → SM response) (req : request)
    (w : world) (r : response) :
  (route req (Date_now E w).2).1 = inr r → (logged E route req w).1 = inr r.
Proof.
  unfold logged, logger_info, logger_log, now_iso, Date_now, console_log,
    console_write.
  unfold_eff. cbn.
  match goal with |- context [route req ?w0] => destruct (route req w0) as [[e|r0] w'] end;
    cbn; [done|]. by intros [= ->].
Qed.

Lemma logged_provider_calls (E : env) (route : request → SM response)
    (req : request) (w : world) :
  provider_calls (logged E route req w).2
  = provider_calls (route req (Date_now E w).2).2.
Proof.
  unfold logged, error_middleware, error_envelope, logger_error, logger_info,
    logger_log, now_iso, Date_now, console_log, console_write.
  unfold_eff. cbn.
  match goal with |- context [route req ?w0] => destruct (route req w0) as [[e|r0] w'] end;
    reflexivity.
Qed.

(** With [REQUEST_TIMEOUT] unset the timeout middleware lets every request
    pass. *)
Lemma app_unset (E : env) (route : request → SM response) (req : request)
    (w : world) :
  timeout_unset E → app E route req w = logged E route req w.
Proof.
  intros Hunset.
  destruct (logged_answers E route req w) as (r & w' & Hrun).
  assert (Hmsecs : REQUEST_TIMEOUT E = VNum "30000").
  { unfold REQUEST_TIMEOUT. by destruct Hunset as [-> | ->]. }
  assert (Hfinite : nonfinite "30000" = false) by by vm_compute.
  unfold app, timeout_middleware, setTimeout_msecs. rewrite Hmsecs, Hfinite.
  unfold_eff. cbn. by rewrite Hrun.
Qed.

(** With [REQUEST_TIMEOUT] set it is a string, [req.setTimeout] throws, and
    every request ends in the error-handling middleware. *)
Lemma app_set (E : env) (route : request → SM response) (req : request)
    (w : world) (s : string) :
  env_REQUEST_TIMEOUT E = Some s → s ≠ "" →
  ∃ e, app E route req w = error_middleware E req e w
       ∧ err_name e = "TypeError" ∧ err_status e = None.
Proof.
  intros Hset Hne.
  unfold app, timeout_middleware, setTimeout_msecs, REQUEST_TIMEOUT. unfold_eff.
  rewrite Hset, decide_False by done. cbn. eauto.
Qed.

(** A route behind the middleware, reached through the app. *)
Lemma app_validated_rejects (E : env) (handler : request → SM response)
    (req : request) (w : world) :
  timeout_unset E → invalid_text (req_body req) →
  ∃ r, (app E (validated E handler) req w).1 = inr r
       ∧ status r = 400
       ∧ json_field "error" r = VStr "Invalid request"
       ∧ provider_calls (app E (validated E handler) req w).2 = provider_calls w.
Proof.
  intros Hunset Hinv. rewrite app_unset by done.
  destruct (validated_rejects E handler req (Date_now E w).2 Hinv)
    as (r & Hr & Hs & He & Hcalls).
  exists r. split; [by apply logged_returns|]. split_and!; [done..|].
  by rewrite logged_provider_calls, Hcalls.
Qed.

(** In no configuration does an invalid text get past the app to the
    provider. *)
Lemma app_validated_no_provider (E : env) (handler : request → SM response)
    (req : request) (w : world) :
  invalid_text (req_body req) →
  provider_calls (app E (validated E handler) req w).2 = provider_calls w.
Proof.
  intros Hinv.
  destruct (env_REQUEST_TIMEOUT E) as [s|] eqn:Hs;
    [destruct (decide (s = "")) as [->|Hne]|].
  - by destruct (app_validated_rejects E handler req w) as (r & _ & _ & _ & ?);
      [right|done|].
  - by destruct (app_set E (validated E handler) req w s Hs Hne) as (e & -> & _).
  - by destruct (app_validated_rejects E handler req w) as (r & _ & _ & _ & ?);
      [left|done|].
Qed.

End HardenedProofs.

(** ** Validation before the provider *)

Section ValidationProofs.
Import JS Eff Server Observe.

(** C4, as the code has it.  In the hardened server a request to a
    transform endpoint whose text is missing, not a string or blank never
    reaches the route handler, so nothing downstream is called, in any
    configuration; with [REQUEST_TIMEOUT] unset it is answered 400 "Invalid
    request" by the validation middleware.  The Gemini proxy has no
    validation: whenever the prompt can be built from the body it got, it
    hands that prompt to the provider, once. *)
Theorem validation_before_handler (E : env) (req : request) (w : world) :
  (invalid_text (req_body req) →
   ∀ handler,
     provider_calls (Hardened.app E (Hardened.validated E handler) req w).2
     = provider_calls w
     ∧ (timeout_unset E →
        ∃ r, (Hardened.app E (Hardened.validated E handler) req w).1 = inr r
             ∧ status r = 400
             ∧ json_field "error" r = VStr "Invalid request"))
  ∧ (∀ action prompt,
       Gemini.buildPrompt action (body_text (req_body req)) = inr prompt →
       provider_calls (Gemini.post_ai E action (req_body req) w).2
       = provider_calls w ++ [prompt]).
Proof.
  split.
  - intros Hinv handler. split; [by apply app_validated_no_provider|].
    intros Hunset.
    destruct (app_validated_rejects E handler req w Hunset Hinv)
      as (r & ? & ? & ? & _).
    by exists r.
  - intros action prompt. apply post_ai_calls.
Qed.

Lemma validation_before_handler_witness :
  let E := stub_env None (Resolves (inr "Hi.")) in
  let req := Request "POST" "/api/make-shorter" {[ "text" := VStr "   " ]} in
  provider_calls (Hardened.app E (Hardened.post_make_shorter E) req fresh_world).2 = []
  ∧ (∃ r, (Hardened.app E (Hardened.post_make_shorter E) req fresh_world).1 = inr r
          ∧ status r = 400
          ∧ json_field "error" r = VStr "Invalid request")
  ∧ provider_calls (Gemini.post_ai E "shorten" (req_body req) fresh_world).2
    = [VStr "    Make it shorter and concise."].
Proof.
  intros E req.
  destruct (validation_before_handler E req fresh_world) as [Hreject Hgemini].
  destruct (Hreject ltac:(right; right; exists "   "; split; reflexivity)
                    (Hardened.make_shorter_handler E)) as [Hcalls H400].
  split_and!.
  - exact Hcalls.
  - apply H400. by left.
  - apply (Hgemini "shorten"). reflexivity.
Defined.

(** C4 as stated fails on the Gemini proxy: a body without [text] is
    answered 200 with the provider's text, after one provider call. *)
Lemma gemini_no_validation_counterexample :
  let E := stub_env None (Resolves (inr "Sure.")) in
  let out := Gemini.post_ai E "shorten" ∅ fresh_world in
  invalid_text ∅
  ∧ out.1 = inr (Response 200 (Json (VObj {[ "result" := VStr "Sure." ]})))
  ∧ provider_calls out.2 = [VStr "undefined Make it shorter and concise."].
Proof.
  split; [by left|]. split; reflexivity.
Qed.

End ValidationProofs.

(** ** Error messages and the environment mode *)

Section ErrorProofs.
Import JS Eff Server Observe.

Ltac unfold_handlers :=
  unfold Hardened.route_catch, Hardened.error_middleware,
    Hardened.error_envelope, Hardened.logger_error, Hardened.logger_log,
    now_iso, Date_now, console_log, console_write in *;
  unfold_eff.

(** The [catch] block of the two routes. *)
Lemma route_catch_message (E : env) (what : string) (err : js_error) (w : world) :
  ∃ r, (Hardened.route_catch E what err w).1 = inr r
       ∧ status r = 500
       ∧ json_field "error" r = VStr "Internal server error"
       ∧ json_field "message" r
         = if decide (Hardened.NODE_ENV E = "development")
           then VStr (err_message err) else VStr "An error occurred".
Proof. unfold_handlers. simpl. eexists. split; [reflexivity|]. by split_and!. Qed.

(** The error-handling middleware. *)
Lemma error_middleware_message (E : env) (req : request) (err : js_error) (w : world) :
  ∃ r, (Hardened.error_middleware E req err w).1 = inr r
       ∧ status r = Hardened.error_status err
       ∧ json_field "error" r = VStr "Internal server error"
       ∧ json_field "message" r
         = if decide (Hardened.NODE_ENV E = "development")
           then VStr (err_message err) else VStr "An error occurred".
Proof. unfold_handlers. simpl. eexists. split; [reflexivity|]. by split_and!. Qed.

(** The [catch] is what a throwing route body ends in: without the
    middleware in front, a body without [text] fails on [text.length]. *)
Lemma transform_route_throws (E : env) (prefix processed failed : string)
    (req : request) (w : world) :
  req_body req !! "text" = None →
  Hardened.transform_route E prefix processed failed req w
  = Hardened.route_catch E failed
      (TypeError "Cannot read properties of undefined (reading 'length')") w.
Proof.
  intros Hb. unfold Hardened.transform_route, length_of, prop. unfold_eff.
  by rewrite (body_text_absent _ Hb).
Qed.

(** C5, as the code has it.  In the hardened server a failure is answered
    with the envelope [{error: "Internal server error", message, timestamp}]
    and nothing else: with status 500 from a route's [catch], with status
    [err.status || 500] from the error-handling middleware.  The message
    is the error's own text when [NODE_ENV] is "development" (also when it
    is unset) and the fixed "An error occurred" in every other mode.  The
    Gemini proxy reads no mode: whenever the prompt could be built and the
    provider then fails, its whole body is [{error: "Failed to process AI
    request: " + the error's text}], always. *)
Theorem error_message_by_mode (E : env) (req : request) (what action : string)
    (err : js_error) (w : world) :
  let envelope code message :=
    Response code
      (Json (VObj {[ "error" := VStr "Internal server error";
                     "message" := VStr message;
                     "timestamp" :=
                       VStr (toISOString E (clock E (S (clock_reads w)))) ]})) in
  (Hardened.NODE_ENV E = "development" →
   (Hardened.route_catch E what err w).1 = inr (envelope 500 (err_message err))
   ∧ (Hardened.error_middleware E req err w).1
     = inr (envelope (Hardened.error_status err) (err_message err)))
  ∧ (Hardened.NODE_ENV E ≠ "development" →
     (Hardened.route_catch E what err w).1 = inr (envelope 500 "An error occurred")
     ∧ (Hardened.error_middleware E req err w).1
       = inr (envelope (Hardened.error_status err) "An error occurred"))
  ∧ (∀ prompt,
       Gemini.buildPrompt action (body_text (req_body req)) = inr prompt →
       provider E prompt = Rejects err ∨ provider E prompt = Resolves (inl err) →
       (Gemini.post_ai E action (req_body req) w).1
       = inr (Response 500 (Json (VObj {[ "error" :=
           VStr ("Failed to process AI request: " +:+ err_message err) ]})))).
Proof.
  intros envelope. subst envelope. split_and!.
  - intros Hdev. unfold_handlers. cbn. by rewrite !decide_True by done.
  - intros Hprod. unfold_handlers. cbn. by rewrite !decide_False by done.
  - intros prompt. apply post_ai_failure.
Qed.

Lemma error_message_by_mode_witness :
  let err := JsError "Error" "API key not valid" "Error: API key not valid" None None in
  let req := Request "POST" "/api/make-shorter" {[ "text" := VStr "Hello" ]} in
  (Hardened.route_catch (stub_env None (Rejects err)) "Error in make-shorter endpoint"
     err fresh_world).1
  = inr (Response 500
           (Json (VObj {[ "error" := VStr "Internal server error";
                          "message" := VStr "API key not valid";
                          "timestamp" := VStr "1" ]})))
  ∧ (Hardened.error_middleware (stub_env (Some "production") (Rejects err)) req
       err fresh_world).1
    = inr (Response 500
             (Json (VObj {[ "error" := VStr "Internal server error";
                            "message" := VStr "An error occurred";
                            "timestamp" := VStr "1" ]})))
  ∧ (Gemini.post_ai (stub_env (Some "production") (Rejects err)) "shorten"
       (req_body req) fresh_world).1
    = inr (Response 500 (Json (VObj {[ "error" :=
        VStr "Failed to process AI request: API key not valid" ]}))).
Proof.
  intros err req. split_and!.
  - destruct (error_message_by_mode (stub_env None (Rejects err)) req
                "Error in make-shorter endpoint" "shorten" err fresh_world)
      as (Hdev & _ & _).
    apply Hdev. reflexivity.
  - destruct (error_message_by_mode (stub_env (Some "production") (Rejects err)) req
                "Error in make-shorter endpoint" "shorten" err fresh_world)
      as (_ & Hprod & _).
    apply Hprod. discriminate.
  - destruct (error_message_by_mode (stub_env (Some "production") (Rejects err)) req
                "Error in make-shorter endpoint" "shorten" err fresh_world)
      as (_ & _ & Hgem).
    apply (Hgem (VStr "Hello Make it shorter and concise.")); [reflexivity|].
    left. reflexivity.
Defined.

(** C5 as stated fails on the Gemini proxy: with [NODE_ENV=production] and
    a provider that fails with "API key not valid", the client is sent that
    very text. *)
Lemma gemini_production_leak_counterexample :
  let err := JsError "Error" "API key not valid" "Error: API key not valid" None None in
  let E := stub_env (Some "production") (Rejects err) in
  let b : gmap string value := {[ "text" := VStr "Hello" ]} in
  Hardened.NODE_ENV E = "production"
  ∧ (Gemini.post_ai E "shorten" b fresh_world).1
    = inr (Response 500 (Json (VObj {[ "error" :=
        VStr "Failed to process AI request: API key not valid" ]})))
  ∧ contains "Failed to process AI request: API key not valid" (err_message err).
Proof.
  split; [reflexivity|]. split; [reflexivity|].
  by exists "Failed to process AI request: ", "".
Qed.

End ErrorProofs.

(** ** The probes *)

Section ProbeProofs.
Import JS Eff Server Observe.

Ltac unfold_probes :=
  unfold Hardened.get_health, Hardened.get_ready, Stub.get_health, now_iso,
    process_uptime, Date_now in *;
  unfold_eff.

Lemma get_health_ok (E : env) (w : world) :
  ∃ r, (Hardened.get_health E w).1 = inr r
       ∧ status r = 200
       ∧ json_keys r = {[ "status"; "timestamp"; "uptime"; "environment" ]}
       ∧ only_clock_read w (Hardened.get_health E w).2.
Proof.
  unfold_probes. simpl. eexists. split; [reflexivity|]. split; [reflexivity|].
  split; [|done]. unfold json_keys. simpl.
  rewrite !dom_insert_L, dom_singleton_L. set_solver.
Qed.

Lemma get_ready_ok (E : env) (w : world) :
  ∃ r, (Hardened.get_ready E w).1 = inr r
       ∧ status r = 200
       ∧ json_keys r = {[ "status"; "timestamp" ]}
       ∧ only_clock_read w (Hardened.get_ready E w).2.
Proof.
  unfold_probes. simpl. eexists. split; [reflexivity|]. split; [reflexivity|].
  split; [|done]. unfold json_keys. simpl.
  rewrite !dom_insert_L, dom_singleton_L. set_solver.
Qed.

Lemma after_calls_only_clock {A} (m : SM A) :
  (∀ w, only_clock_read w (m w).2) →
  ∀ n w, only_clock_read w (after_calls n m w).
Proof.
  intros Hm n w. induction n as [|n IH]; [done|].
  unfold after_calls in *. simpl.
  destruct IH as (IH1 & IH2 & IH3).
  destruct (Hm (Nat.iter n (λ w, (m w).2) w)) as (H1 & H2 & H3).
  split_and!; congruence.
Qed.

(** Behind the access-log middleware a route that only reads the clock
    still leaves the process and the provider alone; the middleware adds its
    one "Request completed" line to the console. *)
Lemma logged_frame (E : env) (route : request → SM response) (req : request)
    (w : world) :
  (∀ w0, ∃ r, (route req w0).1 = inr r ∧ only_clock_read w0 (route req w0).2) →
  ∃ r line,
    (Hardened.logged E route req w).1 = inr r
    ∧ (∃ w0, (route req w0).1 = inr r)
    ∧ provider_calls (Hardened.logged E route req w).2 = provider_calls w
    ∧ process (Hardened.logged E route req w).2 = process w
    ∧ console (Hardened.logged E route req w).2 = console w ++ [line].
Proof.
  intros Hroute.
  unfold Hardened.logged, Hardened.logger_info, Hardened.logger_log, now_iso,
    Date_now, console_log, console_write.
  unfold_eff. cbn.
  match goal with |- context [route req ?w0] =>
    destruct (Hroute w0) as (r & Hr & Hc & Hl & Hp);
    destruct (route req w0) as [out w1] eqn:Hrun end.
  cbn in *. subst out. cbn.
  exists r. eexists. split; [reflexivity|]. split; [|by rewrite Hc, Hl, Hp].
  eexists. by rewrite Hrun.
Qed.

(** The access log leaves the process state to the route. *)
Lemma logged_process (E : env) (route : request → SM response) (req : request)
    (w : world) :
  (∀ w0, process (route req w0).2 = process w0) →
  process (Hardened.logged E route req w).2 = process w.
Proof.
  intros Hroute.
  unfold Hardened.logged, Hardened.error_middleware, Hardened.error_envelope,
    Hardened.logger_error, Hardened.logger_info, Hardened.logger_log, now_iso,
    Date_now, console_log, console_write.
  unfold_eff. cbn.
  match goal with |- context [route req ?w0] =>
    pose proof (Hroute w0) as Hp;
    destruct (route req w0) as [[e|r] w1] end; cbn in *; by rewrite Hp.
Qed.

(** Neither does the timeout middleware touch it, whether it throws or
    not. *)
Lemma app_process (E : env) (route : request → SM response) (req : request)
    (w : world) :
  (∀ w0, process (route req w0).2 = process w0) →
  process (Hardened.app E route req w).2 = process w.
Proof.
  intros Hroute.
  destruct (env_REQUEST_TIMEOUT E) as [s|] eqn:Hs;
    [destruct (decide (s = "")) as [->|Hne]|].
  - rewrite app_unset by by right. by apply logged_process.
  - destruct (app_set E route req w s Hs Hne) as (e & -> & _). reflexivity.
  - rewrite app_unset by by left. by apply logged_process.
Qed.

Lemma after_calls_process {A} (m : SM A) :
  (∀ w, process (m w).2 = process w) →
  ∀ n w, process (after_calls n m w) = process w.
Proof.
  intros Hm n w. induction n as [|n IH]; [done|].
  unfold after_calls in *. by rewrite Nat.iter_succ, Hm.
Qed.

(** A probe route reached through the app, with [REQUEST_TIMEOUT] unset:
    the response is the handler's. *)
Lemma app_probe (E : env) (probe : SM response) (req : request) (w : world) :
  timeout_unset E →
  (∀ w0, ∃ r, (probe w0).1 = inr r ∧ only_clock_read w0 (probe w0).2) →
  ∃ r w0, (Hardened.app E (λ _, probe) req w).1 = inr r ∧ (probe w0).1 = inr r.
Proof.
  intros Hunset Hprobe. rewrite app_unset by done.
  destruct (logged_frame E (λ _, probe) req w Hprobe) as (r & l & Hr & [w0 Hw0] & _).
  by exists r, w0.
Qed.

(** C8, as the code has it.  The probe handlers of the hardened server
    always answer 200, [/health] with the keys status, timestamp, uptime,
    environment and [/ready] with the keys status, timestamp, and with
    [REQUEST_TIMEOUT] unset that is what [GET /health] and [GET /ready]
    answer through the app.  In the minimal stub [GET /health] answers 200
    with the plain text "ok".  No probe handler, called any number of times,
    changes the process state, writes to the console or calls the provider;
    through the app of the hardened server the process state stays the same
    as well, in every configuration. *)
Theorem probes_idempotent (E : env) (req : request) (w : world) (n : nat) :
  (∃ r, (Hardened.get_health E w).1 = inr r
        ∧ status r = 200
        ∧ json_keys r = {[ "status"; "timestamp"; "uptime"; "environment" ]})
  ∧ (∃ r, (Hardened.get_ready E w).1 = inr r
          ∧ status r = 200
          ∧ json_keys r = {[ "status"; "timestamp" ]})
  ∧ (timeout_unset E →
     (∃ r, (Hardened.app E (λ _, Hardened.get_health E) req w).1 = inr r
           ∧ status r = 200
           ∧ json_keys r = {[ "status"; "timestamp"; "uptime"; "environment" ]})
     ∧ (∃ r, (Hardened.app E (λ _, Hardened.get_ready E) req w).1 = inr r
             ∧ status r = 200
             ∧ json_keys r = {[ "status"; "timestamp" ]}))
  ∧ Stub.get_health w = (inr (Response 200 (Text "ok")), w)
  ∧ only_clock_read w (after_calls n (Hardened.get_health E) w)
  ∧ only_clock_read w (after_calls n (Hardened.get_ready E) w)
  ∧ after_calls n Stub.get_health w = w
  ∧ process (after_calls n (Hardened.app E (λ _, Hardened.get_health E) req) w)
    = process w
  ∧ process (after_calls n (Hardened.app E (λ _, Hardened.get_ready E) req) w)
    = process w.
Proof.
  assert (Hhealth : ∀ w0, ∃ r, (Hardened.get_health E w0).1 = inr r
                               ∧ only_clock_read w0 (Hardened.get_health E w0).2).
  { intros w0. destruct (get_health_ok E w0) as (r & ? & _ & _ & ?). by exists r. }
  assert (Hready : ∀ w0, ∃ r, (Hardened.get_ready E w0).1 = inr r
                              ∧ only_clock_read w0 (Hardened.get_ready E w0).2).
  { intros w0. destruct (get_ready_ok E w0) as (r & ? & _ & _ & ?). by exists r. }
  split_and!.
  - destruct (get_health_ok E w) as (r & ? & ? & ? & _). by exists r.
  - destruct (get_ready_ok E w) as (r & ? & ? & ? & _). by exists r.
  - intros Hunset. split.
    + destruct (app_probe E (Hardened.get_health E) req w Hunset Hhealth)
        as (r & w0 & Hr & Hw0).
      destruct (get_health_ok E w0) as (r0 & Hr0 & ? & ? & _).
      exists r. rewrite Hw0 in Hr0. by injection Hr0 as <-.
    + destruct (app_probe E (Hardened.get_ready E) req w Hunset Hready)
        as (r & w0 & Hr & Hw0).
      destruct (get_ready_ok E w0) as (r0 & Hr0 & ? & ? & _).
      exists r. rewrite Hw0 in Hr0. by injection Hr0 as <-.
  - reflexivity.
  - apply after_calls_only_clock. intros w0.
    by destruct (get_health_ok E w0) as (r & _ & _ & _ & ?).
  - apply after_calls_only_clock. intros w0.
    by destruct (get_ready_ok E w0) as (r & _ & _ & _ & ?).
  - induction n as [|n IH]; [done|].
    unfold after_calls in *. by rewrite Nat.iter_succ, IH.
  - apply after_calls_process. intros w0. apply app_process. intros w1.
    by destruct (get_health_ok E w1) as (r & _ & _ & _ & _ & _ & ?).
  - apply after_calls_process. intros w0. apply app_process. intros w1.
    by destruct (get_ready_ok E w1) as (r & _ & _ & _ & _ & _ & ?).
Qed.

Lemma probes_idempotent_witness :
  let E := stub_env (Some "production") (Resolves (inr "unused")) in
  let req := Request "GET" "/health" ∅ in
  (∃ r, (Hardened.app E (λ _, Hardened.get_health E) req fresh_world).1 = inr r
        ∧ status r = 200
        ∧ json_keys r = {[ "status"; "timestamp"; "uptime"; "environment" ]})
  ∧ (∃ r, (Hardened.app E (λ _, Hardened.get_ready E) req fresh_world).1 = inr r
          ∧ status r = 200
          ∧ json_keys r = {[ "status"; "timestamp" ]}).
Proof.
  intros E req.
  destruct (probes_idempotent E req fresh_world 3) as (_ & _ & Happ & _).
  apply Happ. by left.
Defined.

(** The process state is not inert: shutting down changes it. *)
Example shutdown_changes_process :
  process (Hardened.gracefulShutdown (stub_env None (Resolves (inr ""))) fresh_world).2
  = Process false None
  ∧ process (Hardened.on_forced_shutdown (stub_env None (Resolves (inr ""))) fresh_world).2
    = Process true (Some 1%Z).
Proof. split; reflexivity. Qed.

(** C8 as stated fails on the minimal stub: its [GET /health] sends the
    text "ok", not an object with the four keys. *)
Lemma stub_health_shape_counterexample :
  (Stub.get_health fresh_world).1 = inr (Response 200 (Text "ok"))
  ∧ json_keys (Response 200 (Text "ok"))
    ≠ {[ "status"; "timestamp"; "uptime"; "environment" ]}.
Proof.
  split; [reflexivity|].
  unfold json_keys. simpl. intros Heq.
  assert ("status" ∈ (∅ : gset string)) as Hin by (rewrite Heq; set_solver).
  set_solver.
Qed.

End ProbeProofs.

(** ** The stub transforms *)

Section StubProofs.
Import JS Eff Server Observe.

Ltac unfold_routes :=
  unfold Hardened.post_make_shorter, Hardened.post_make_longer,
    Hardened.make_shorter_handler, Hardened.make_longer_handler,
    Hardened.validated, Hardened.transform_route, Hardened.logger_info,
    Hardened.logger_log, now_iso, Date_now, console_log, console_write,
    length_of in *;
  unfold_eff.

(** A route of the hardened server on a valid text: 200, the prefix put in
    front of the text, and no provider call. *)
Lemma hardened_route_valid (E : env) (prefix processed failed : string)
    (req : request) (w : world) (T : string) :
  req_body req !! "text" = Some (VStr T) → blank T = false →
  let out := Hardened.validated E
               (Hardened.transform_route E prefix processed failed) req w in
  ∃ r, out.1 = inr r
       ∧ status r = 200
       ∧ json_field "result" r = VStr (prefix +:+ T)
       ∧ json_keys r = {[ "success"; "result"; "timestamp" ]}
       ∧ provider_calls out.2 = provider_calls w.
Proof.
  intros Hb Hbl out. subst out.
  pose proof (body_text_present _ _ Hb) as Ht.
  unfold Hardened.validated. unfold_eff.
  rewrite (validate_passes E req w T Ht Hbl).
  unfold_routes. rewrite Ht. simpl.
  eexists. split; [reflexivity|]. split_and!; reflexivity.
Qed.

(** A transform route reached through the app, with [REQUEST_TIMEOUT]
    unset. *)
Lemma app_route_valid (E : env) (prefix processed failed : string)
    (req : request) (w : world) (T : string) :
  timeout_unset E →
  req_body req !! "text" = Some (VStr T) → blank T = false →
  let out := Hardened.app E
               (Hardened.validated E
                  (Hardened.transform_route E prefix processed failed)) req w in
  ∃ r, out.1 = inr r
       ∧ status r = 200
       ∧ json_field "result" r = VStr (prefix +:+ T)
       ∧ json_keys r = {[ "success"; "result"; "timestamp" ]}
       ∧ provider_calls out.2 = provider_calls w.
Proof.
  intros Hunset Hb Hbl out. subst out. rewrite app_unset by done.
  destruct (hardened_route_valid E prefix processed failed req (Date_now E w).2 T
              Hb Hbl) as (r & Hr & Hs & Hres & Hkeys & Hcalls).
  exists r. split; [by apply logged_returns|]. split_and!; [done..|].
  by rewrite logged_provider_calls, Hcalls.
Qed.

(** X20. With [REQUEST_TIMEOUT] unset, the hardened server answers every
    valid text on [/api/make-shorter] and [/api/make-longer] with 200 and
    the fixed prefix followed by the text, "Shorter version of: " and
    "Longer version of: ", and calls no provider; the minimal stub answers
    with the same results in every configuration, and leaves the world as
    it was. *)
Theorem stub_transforms (E : env) (req : request) (w : world) (T : string) :
  req_body req !! "text" = Some (VStr T) → blank T = false →
  (timeout_unset E →
   (∃ r, (Hardened.app E (Hardened.post_make_shorter E) req w).1 = inr r
         ∧ status r = 200
         ∧ json_field "result" r = VStr ("Shorter version of: " +:+ T)
         ∧ provider_calls (Hardened.app E (Hardened.post_make_shorter E) req w).2
           = provider_calls w)
   ∧ (∃ r, (Hardened.app E (Hardened.post_make_longer E) req w).1 = inr r
           ∧ status r = 200
           ∧ json_field "result" r = VStr ("Longer version of: " +:+ T)
           ∧ provider_calls (Hardened.app E (Hardened.post_make_longer E) req w).2
             = provider_calls w))
  ∧ Stub.post_make_shorter req w
    = (inr (Response 200 (Json (VObj {[ "result" :=
         VStr ("Shorter version of: " +:+ T) ]}))), w)
  ∧ Stub.post_make_longer req w
    = (inr (Response 200 (Json (VObj {[ "result" :=
         VStr ("Longer version of: " +:+ T) ]}))), w).
Proof.
  intros Hb Hbl. split_and!.
  - intros Hunset. split.
    + destruct (app_route_valid E "Shorter version of: "
                  "Make-shorter request processed" "Error in make-shorter endpoint"
                  req w T Hunset Hb Hbl) as (r & ? & ? & ? & _ & ?).
      by exists r.
    + destruct (app_route_valid E "Longer version of: "
                  "Make-longer request processed" "Error in make-longer endpoint"
                  req w T Hunset Hb Hbl) as (r & ? & ? & ? & _ & ?).
      by exists r.
  - unfold Stub.post_make_shorter. by rewrite (body_text_present _ _ Hb).
  - unfold Stub.post_make_longer. by rewrite (body_text_present _ _ Hb).
Qed.

Lemma stub_transforms_witness :
  let E := stub_env None (Resolves (inr "unused")) in
  let req := Request "POST" "/api/make-shorter" {[ "text" := VStr "Hello world" ]} in
  (∃ r, (Hardened.app E (Hardened.post_make_shorter E) req fresh_world).1 = inr r
        ∧ status r = 200
        ∧ json_field "result" r = VStr "Shorter version of: Hello world"
        ∧ provider_calls (Hardened.app E (Hardened.post_make_shorter E) req
                            fresh_world).2 = [])
  ∧ Stub.post_make_longer req fresh_world
    = (inr (Response 200 (Json (VObj {[ "result" :=
         VStr "Longer version of: Hello world" ]}))), fresh_world).
Proof.
  intros E req.
  destruct (stub_transforms E req fresh_world "Hello world") as (Happ & _ & Hlong);
    [reflexivity | reflexivity |].
  split; [|exact Hlong].
  destruct Happ as [Hshort _]; [by left|]. exact Hshort.
Defined.

(** C10, where the code departs from it.  [REQUEST_TIMEOUT] read from the
    environment is a string, and [req.setTimeout] takes a number: with
    [REQUEST_TIMEOUT=30000] set, as the deployment guide has it, the
    timeout middleware throws on every request, and [POST /api/make-shorter]
    with the valid text "Hello world" is answered 500 "Internal server
    error" by the error-handling middleware, with no result; neither the
    validation nor the route handler is reached, and the access log has no
    line for the request. *)
Lemma make_shorter_request_timeout :
  let E := with_REQUEST_TIMEOUT "30000"
             (stub_env (Some "production") (Resolves (inr "unused"))) in
  let req := Request "POST" "/api/make-shorter" {[ "text" := VStr "Hello world" ]} in
  let out := Hardened.app E (Hardened.post_make_shorter E) req fresh_world in
  Hardened.REQUEST_TIMEOUT E = VStr "30000"
  ∧ out.1 = inr (Response 500
                   (Json (VObj {[ "error" := VStr "Internal server error";
                                  "message" := VStr "An error occurred";
                                  "timestamp" := VStr "1" ]})))
  ∧ (∀ r, out.1 = inr r → json_field "result" r = VUndefined)
  ∧ (∃ line, console out.2 = [line]
             ∧ Trace.json_log line !! "message" = Some (VStr "Unhandled error")
             ∧ Trace.json_log line !! "error"
               = Some (VStr ("The " +:+ dquote +:+ "msecs" +:+ dquote +:+
                             " argument must be of type number. Received type string ('30000')"))).
Proof.
  intros E req out. split; [reflexivity|]. split; [reflexivity|]. split.
  - intros r [= <-]. reflexivity.
  - eexists. split; [reflexivity|]. split; reflexivity.
Qed.

End StubProofs.

(** ** The client handlers *)

Section ClientProofs.
Import JS Eff Client ObserveClient.
Context {S : Type} `{Editor S}.

Ltac unfold_client :=
  unfold AppPanel.handleAIAction, AppAxios.handleAIAction, AppBubble.handleAction,
    AppPanel.setError, AppPanel.setTimeout, AppPanel.setLoading,
    AppPanel.setSuccess, AppPanel.setTransformedText, AppAxios.lookup_url,
    axios_post, fetch, response_json, send, suspended, dispatch, editor_state,
    client_log, set_ui, prop, destructure in *;
  unfold_eff.

(** [!s.trim()] and [!s || s.trim().length === 0] are both "blank". *)
Lemma not_truthy_trim (s : string) : negb (truthy (VStr (trim s))) = blank s.
Proof. simpl. by rewrite negb_involutive. Qed.

Lemma falsy_or_blank (s : string) :
  negb (truthy (VStr s)) || has_length_0 (trim s) = blank s.
Proof.
  simpl. rewrite negb_involutive. unfold blank.
  destruct (bool_decide_reflect (s = "")) as [->|]; [reflexivity|done].
Qed.

(** *** Blank selections *)





(** *** Replies *)

(** The bubble-menu variant on a 2xx reply with a [result]: the result is
    inserted at the selection the editor has when the reply has been read,
    after whatever the user did during the two waits. *)
Lemma bubble_success (C : client_env S) (action : string) (w : client S unit)
    (ed : S) (result : value) :
  editor w = Some ed →
  blank (textBetween ed (selection ed).1 (selection ed).2) = false →
  succeeded_with
    (net C (bubble_request action (textBetween ed (selection ed).1 (selection ed).2)))
    result →
  let now := meanwhile C (Datatypes.S (awaits w)) (meanwhile C (awaits w) ed) in
  let out := AppBubble.handleAction C action w in
  out.1 = inr tt
  ∧ editor out.2 = Some (insertContentAt now (selection now) result).
Proof.
  intros Hed Hbl (code & data & Hnet & Hok & Hres & Htr). unfold bubble_request in Hnet.
  unfold_client. rewrite Hed, not_truthy_trim, Hbl. cbn -[Nat.leb Nat.ltb].
  rewrite Hnet. cbn -[Nat.leb Nat.ltb]. rewrite Hok. cbn. rewrite Hed. cbn.
  rewrite Hres, Htr.
  assert (truthy data = true) as ->.
  { destruct data; simpl in *; subst; simpl in *; done. }
  simpl. done.
Qed.

(** The bubble-menu variant on anything else: the error goes to the
    console, and the editor is as the user left it. *)
Lemma bubble_failure (C : client_env S) (action : string) (w : client S unit) (ed : S) :
  editor w = Some ed →
  blank (textBetween ed (selection ed).1 (selection ed).2) = false →
  let o := net C (bubble_request action
                    (textBetween ed (selection ed).1 (selection ed).2)) in
  failed o →
  let out := AppBubble.handleAction C action w in
  out.1 = inr tt
  ∧ editor out.2 = Some (meanwhile C (awaits w) ed)
  ∧ cconsole out.2
    = cconsole w ++
      [match o with
       | NetworkFailure e => ConsoleError [AVal (VStr "API Error:"); AErr e]
       | HttpReply code _ =>
           ConsoleError
             [AVal (VStr ("API request failed with status: " +:+ pretty code))]
       end].
Proof.
  intros Hed Hbl o Hfail. subst o. unfold bubble_request in *.
  unfold_client. rewrite Hed, not_truthy_trim, Hbl. cbn -[Nat.leb Nat.ltb].
  destruct (net C _) as [e|code p]; cbn -[Nat.leb Nat.ltb] in *.
  - rewrite Hed. cbn. eauto.
  - rewrite Hfail. cbn. rewrite Hed. cbn. eauto.
Qed.

(** The panel variant never issues an editor command: whatever comes back,
    the editor is as the user left it, one request went out, and the busy
    flag is down again. *)
Lemma panel_editor_untouched (C : client_env S) (action : string)
    (w : client S AppPanel.ui_state) (ed : S) :
  editor w = Some ed → blank (parent_textContent ed) = false →
  let out := AppPanel.handleAIAction C action w in
  out.1 = inr tt
  ∧ editor out.2 = Some (meanwhile C (awaits w) ed)
  ∧ requests out.2 = requests w ++ [panel_request C action (parent_textContent ed)]
  ∧ AppPanel.loading (ui out.2) = false.
Proof.
  intros Hed Hbl. unfold panel_request.
  unfold_client. rewrite Hed, falsy_or_blank, Hbl. cbn -[Nat.leb Nat.ltb].
  rewrite Hed.
  destruct (net C _) as [e|code p]; cbn -[Nat.leb Nat.ltb]; [done|].
  destruct ((200 <=? code) && (code <? 300)); cbn; [|done].
  destruct p as [[]|]; cbn; try done;
    match goal with |- context [truthy ?v] => destruct (truthy v) end; done.
Qed.

(** On a 2xx reply with a [result] the panel variant keeps the result in
    [transformedText] and raises the success flag. *)
Lemma panel_success (C : client_env S) (action : string)
    (w : client S AppPanel.ui_state) (ed : S) (result : value) :
  editor w = Some ed → blank (parent_textContent ed) = false →
  succeeded_with (net C (panel_request C action (parent_textContent ed))) result →
  let out := AppPanel.handleAIAction C action w in
  AppPanel.transformedText (ui out.2) = result
  ∧ AppPanel.success (ui out.2) = true
  ∧ AppPanel.error (ui out.2) = VNull.
Proof.
  intros Hed Hbl (code & data & Hnet & Hok & Hres & Htr). unfold panel_request in Hnet.
  unfold_client. rewrite Hed, falsy_or_blank, Hbl. cbn -[Nat.leb Nat.ltb].
  rewrite Hnet. cbn -[Nat.leb Nat.ltb]. rewrite Hok. cbn.
  destruct data; cbn in *; subst; cbn in *; try done.
  by rewrite Htr.
Qed.

(** On anything else the panel variant shows [errorMsg] of the error, the
    network's own or the one axios makes of the reply, logs that error, and
    leaves [transformedText] alone. *)
Lemma panel_failure (C : client_env S) (action : string)
    (w : client S AppPanel.ui_state) (ed : S) :
  editor w = Some ed → blank (parent_textContent ed) = false →
  let o := net C (panel_request C action (parent_textContent ed)) in
  failed o →
  let err := match o with
             | NetworkFailure e => e
             | HttpReply code p => axios_error code (axios_data p)
             end in
  let out := AppPanel.handleAIAction C action w in
  AppPanel.transformedText (ui out.2) = AppPanel.transformedText (ui w)
  ∧ AppPanel.error (ui out.2) = AppPanel.errorMsg err
  ∧ cconsole out.2
    = cconsole w ++ [ConsoleError [AVal (VStr "AI action failed:"); AErr err]].
Proof.
  intros Hed Hbl o Hfail. subst o. unfold panel_request in *.
  unfold_client. rewrite Hed, falsy_or_blank, Hbl. cbn -[Nat.leb Nat.ltb].
  destruct (net C _) as [e|code p]; cbn -[Nat.leb Nat.ltb] in *.
  - done.
  - rewrite Hfail. cbn. done.
Qed.

(** The message shown is the server's own when the reply carries one. *)
Lemma errorMsg_server_message (err : js_error) (fields : gmap string value) (m : string) :
  err_response_data err = Some (VObj fields) →
  fields !! "message" = Some (VStr m) → m ≠ "" →
  AppPanel.errorMsg err = VStr m.
Proof.
  intros Hd Hm Hne. unfold AppPanel.errorMsg, opt_prop, get_field.
  rewrite Hd, Hm. simpl. by rewrite bool_decide_false.
Qed.

(** The bubble-menu variant issues its one editor command only on a 2xx
    reply with a result: in every other case the editor is as the user left
    it during the one or two waits. *)
Lemma bubble_frame (C : client_env S) (action : string) (w : client S unit) (ed : S) :
  editor w = Some ed →
  blank (textBetween ed (selection ed).1 (selection ed).2) = false →
  (¬ ∃ result, succeeded_with
       (net C (bubble_request action (textBetween ed (selection ed).1 (selection ed).2)))
       result) →
  let out := AppBubble.handleAction C action w in
  out.1 = inr tt
  ∧ (editor out.2 = Some (meanwhile C (awaits w) ed)
     ∨ editor out.2
       = Some (meanwhile C (Datatypes.S (awaits w)) (meanwhile C (awaits w) ed))).
Proof.
  intros Hed Hbl Hno. unfold bubble_request in Hno.
  unfold_client. rewrite Hed, not_truthy_trim, Hbl. cbn -[Nat.leb Nat.ltb].
  destruct (net C _) as [e|code p]; cbn -[Nat.leb Nat.ltb] in *.
  - rewrite Hed. cbn. by split; [|left].
  - destruct ((200 <=? code) && (code <? 300)) eqn:Hok; cbn.
    + destruct p as [data|raw]; cbn.
      * destruct (truthy data && truthy (get_field data "result")) eqn:Htr; cbn.
        -- exfalso. apply Hno. exists (get_field data "result"), code, data.
           apply andb_prop in Htr as [_ Htr]. by split_and!.
        -- rewrite Hed. cbn. by split; [|right].
      * rewrite Hed. cbn. by split; [|right].
    + rewrite Hed. cbn. by split; [|left].
Qed.

(** C6, as the code has it.  On any failure no variant touches the
    document: the editor is as the user left it.  On a 2xx reply with a
    result, the bubble-menu variant inserts the result at the selection the
    editor has when the reply has been read, and the panel variant keeps the
    result in [transformedText], next to the editor, and inserts nothing.
    On a failure the panel variant shows in the page [errorMsg] of the
    error, which is the network's own or the one axios makes of the reply,
    and logs that error; the bubble-menu variant writes to the console
    only: "API Error:" with the network's error, or "API request failed
    with status: " and the status of the reply. *)
Theorem reply_effects (C : client_env S) (action : string) (ed : S) (result : value)
    (wb : client S unit) (wp : client S AppPanel.ui_state) :
  (editor wb = Some ed →
   blank (textBetween ed (selection ed).1 (selection ed).2) = false →
   let o := net C (bubble_request action
                     (textBetween ed (selection ed).1 (selection ed).2)) in
   let out := AppBubble.handleAction C action wb in
   let now := meanwhile C (Datatypes.S (awaits wb)) (meanwhile C (awaits wb) ed) in
   (succeeded_with o result →
    editor out.2 = Some (insertContentAt now (selection now) result))
   ∧ (failed o →
      editor out.2 = Some (meanwhile C (awaits wb) ed)
      ∧ ui out.2 = ui wb
      ∧ cconsole out.2
        = cconsole wb ++
          [match o with
           | NetworkFailure e => ConsoleError [AVal (VStr "API Error:"); AErr e]
           | HttpReply code _ =>
               ConsoleError
                 [AVal (VStr ("API request failed with status: " +:+ pretty code))]
           end])
   ∧ ((¬ ∃ r, succeeded_with o r) →
      editor out.2 = Some (meanwhile C (awaits wb) ed) ∨ editor out.2 = Some now))
  ∧ (editor wp = Some ed → blank (parent_textContent ed) = false →
     let o := net C (panel_request C action (parent_textContent ed)) in
     let out := AppPanel.handleAIAction C action wp in
     editor out.2 = Some (meanwhile C (awaits wp) ed)
     ∧ (succeeded_with o result → AppPanel.transformedText (ui out.2) = result)
     ∧ (failed o →
        let err := match o with
                   | NetworkFailure e => e
                   | HttpReply code p => axios_error code (axios_data p)
                   end in
        AppPanel.transformedText (ui out.2) = AppPanel.transformedText (ui wp)
        ∧ AppPanel.error (ui out.2) = AppPanel.errorMsg err
        ∧ cconsole out.2
          = cconsole wp ++ [ConsoleError [AVal (VStr "AI action failed:"); AErr err]])).
Proof.
  split.
  - intros Hed Hbl o out now. subst o out now. split_and!.
    + intros Hok. by destruct (bubble_success C action wb ed result Hed Hbl Hok).
    + intros Hfail.
      destruct (bubble_failure C action wb ed Hed Hbl Hfail) as (_ & ? & ?).
      split_and!; [done| |done]. by destruct (ui _), (ui wb).
    + intros Hno. by destruct (bubble_frame C action wb ed Hed Hbl Hno).
  - intros Hed Hbl o out. subst o out. split_and!.
    + by destruct (panel_editor_untouched C action wp ed Hed Hbl) as (_ & ? & _).
    + intros Hok. by destruct (panel_success C action wp ed result Hed Hbl Hok).
    + intros Hfail. by apply panel_failure.
Qed.

End ClientProofs.

(** ** The client handlers on concrete documents *)

Section ClientExamples.
Import JS Eff Client ObserveClient PlainText.



Lemma reply_effects_witness :
  let ed := Buffer "Hello world" 0 5 in
  let ok := quiet (HttpReply 200 (JsonPayload (VObj {[ "result" := VStr "Hi" ]}))) in
  let ko := quiet (HttpReply 500 (JsonPayload (VObj {[ "error" := VStr "boom" ]}))) in
  editor (AppBubble.handleAction ok "shorten" (mounted ed ())).2
    = Some (Buffer "Hi world" 2 2)
  ∧ editor (AppBubble.handleAction ko "shorten" (mounted ed ())).2 = Some ed
  ∧ cconsole (AppBubble.handleAction ko "shorten" (mounted ed ())).2
    = [ConsoleError [AVal (VStr "API request failed with status: 500")]]
  ∧ editor (AppPanel.handleAIAction ok "shorter" (mounted ed AppPanel.initial_ui)).2
    = Some ed
  ∧ AppPanel.transformedText
      (ui (AppPanel.handleAIAction ok "shorter" (mounted ed AppPanel.initial_ui)).2)
    = VStr "Hi"
  ∧ AppPanel.transformedText
      (ui (AppPanel.handleAIAction ko "shorter" (mounted ed AppPanel.initial_ui)).2)
    = VStr ""
  ∧ AppPanel.error
      (ui (AppPanel.handleAIAction ko "shorter" (mounted ed AppPanel.initial_ui)).2)
    = VStr "Request failed with status code 500".
Proof.
  intros ed ok ko.
  assert (succeeded_with (HttpReply 200 (JsonPayload (VObj {[ "result" := VStr "Hi" ]})))
            (VStr "Hi")) as Hok.
  { exists 200, (VObj {[ "result" := VStr "Hi" ]}). by split_and!. }
  destruct (reply_effects ok "shorten" ed (VStr "Hi") (mounted ed ())
              (mounted ed AppPanel.initial_ui)) as (Hb & _).
  destruct (reply_effects ko "shorten" ed (VStr "Hi") (mounted ed ())
              (mounted ed AppPanel.initial_ui)) as (Hb' & _).
  destruct (reply_effects ok "shorter" ed (VStr "Hi") (mounted ed ())
              (mounted ed AppPanel.initial_ui)) as (_ & Hp).
  destruct (reply_effects ko "shorter" ed (VStr "Hi") (mounted ed ())
              (mounted ed AppPanel.initial_ui)) as (_ & Hp').
  split_and!.
  - destruct (Hb eq_refl eq_refl) as (Hs & _ & _). exact (Hs Hok).
  - destruct (Hb' eq_refl eq_refl) as (_ & Hf & _). by destruct (Hf eq_refl) as (? & _).
  - destruct (Hb' eq_refl eq_refl) as (_ & Hf & _).
    by destruct (Hf eq_refl) as (_ & _ & ?).
  - by destruct (Hp eq_refl eq_refl) as (? & _).
  - destruct (Hp eq_refl eq_refl) as (_ & Hs & _). exact (Hs Hok).
  - destruct (Hp' eq_refl eq_refl) as (_ & _ & Hf). by destruct (Hf eq_refl) as (? & _).
  - destruct (Hp' eq_refl eq_refl) as (_ & _ & Hf).
    by destruct (Hf eq_refl) as (_ & ? & _).
Defined.

(** The bubble-menu variant inserts where the selection is when the reply
    arrives: here the user has moved it from "Hello" to "world" while the
    request was pending. *)
Example bubble_stale_selection :
  let ed := Buffer "Hello world" 0 5 in
  let C := ClientEnv buffer
             (λ _, HttpReply 200 (JsonPayload (VObj {[ "result" := VStr "Hi" ]})))
             (λ k b, if (k =? 0)%nat then Buffer (text b) 6 11 else b)
             None None (λ _, "Unexpected end of JSON input") in
  editor (AppBubble.handleAction C "shorten" (mounted ed ())).2
  = Some (Buffer "Hello Hi" 8 8).
Proof. reflexivity. Qed.

(** C6 as stated fails on the panel variant: a successful reply is not
    spliced into the document, which stays as it was. *)
Lemma panel_no_splice_counterexample :
  let ed := Buffer "Hello world" 0 5 in
  let ok := quiet (HttpReply 200 (JsonPayload
              (VObj {[ "success" := VBool true; "result" := VStr "Hi";
                       "timestamp" := VStr "2025-01-01T00:00:00.000Z" ]}))) in
  let out := AppPanel.handleAIAction ok "shorter" (mounted ed AppPanel.initial_ui) in
  out.1 = inr ()
  ∧ insertContentAt ed (selection ed) (VStr "Hi") = Buffer "Hi world" 2 2
  ∧ editor out.2 = Some ed
  ∧ editor out.2 ≠ Some (insertContentAt ed (selection ed) (VStr "Hi"))
  ∧ AppPanel.transformedText (ui out.2) = VStr "Hi".
Proof.
  split_and!; try reflexivity. discriminate.
Qed.

End ClientExamples.

(** * Further properties of the code *)

(** ** The Gemini proxy: every outcome, every kind of text *)

Section GeminiMore.
Import JS Eff Server Gemini Observe Trace.

(** The handler leaves the process state as it was. *)
Lemma post_ai_process (E : env) (action : string) (b : gmap string value)
    (w : world) :
  process (post_ai E action b w).2 = process w.
Proof.
  unfold post_ai, ai_catch, generateContent, response_text, console_log,
    console_error, console_write, lift. unfold_eff.
  destruct (buildPrompt action (body_text b)) as [e|prompt]; simpl; [done|].
  destruct (provider E _) as [e|[e|s]]; reflexivity.
Qed.

(** X1.  Whenever the prompt can be built, the handler answers, in one of
    two ways: 200 with the provider's text exactly when the provider gave
    text, 500 with the error's message exactly when it failed, and the
    process state is left as it was.  When the prompt cannot be built, the
    handler throws before its [try]: it sends no response, and nothing is
    logged or asked of the provider. *)
Theorem post_ai_always_answers (E : env) (action : string)
    (b : gmap string value) (w : world) :
  match buildPrompt action (body_text b) with
  | inr prompt =>
      ∃ r, (post_ai E action b w).1 = inr r
           ∧ process (post_ai E action b w).2 = process w
           ∧ ((status r = 200
               ∧ ∃ R, provider E prompt = Resolves (inr R)
                      ∧ json_field "result" r = VStr R)
              ∨ (status r = 500
                 ∧ ∃ e, (provider E prompt = Rejects e
                         ∨ provider E prompt = Resolves (inl e))
                        ∧ json_field "result" r = VUndefined
                        ∧ json_field "error" r
                          = VStr ("Failed to process AI request: " +:+ err_message e)))
  | inl e =>
      (post_ai E action b w).1 = inl e
      ∧ provider_calls (post_ai E action b w).2 = provider_calls w
      ∧ console (post_ai E action b w).2 = console w
  end.
Proof.
  pose proof (post_ai_process E action b w) as Hproc.
  destruct (buildPrompt action (body_text b)) as [e0|prompt] eqn:Hp.
  - by rewrite (post_ai_throws E action b w e0 Hp).
  - destruct (provider E prompt) as [e|[e|R]] eqn:HP.
    + eexists. split; [apply (post_ai_failure _ _ _ _ prompt e Hp); by left|].
      split; [done|]. right. split; [done|]. exists e. split_and!; [by left|done..].
    + eexists. split; [apply (post_ai_failure _ _ _ _ prompt e Hp); by right|].
      split; [done|]. right. split; [done|]. exists e. split_and!; [by right|done..].
    + eexists. split; [by apply (post_ai_success _ _ _ _ prompt R Hp)|].
      split; [done|]. left. split; [done|]. by exists R.
Qed.

(** X2.  A text that is not a string is not refused but coerced.  When
    ToString gives a string for it, the provider gets that string followed
    by the suffix for [shorten] and [lengthen]; when ToString throws (an
    object with a [toString] of its own that is no function, also as an
    element of an array), the handler throws and the provider is not
    called.  For any other action the provider gets the value itself,
    string or not. *)
Theorem post_ai_coerces_text (E : env) (action : string) (v : value)
    (b : gmap string value) (w : world) :
  b !! "text" = Some v →
  (∀ s, toString v = Some s →
     provider_calls (post_ai E "shorten" b w).2
     = provider_calls w ++ [VStr (s +:+ " Make it shorter and concise.")]
     ∧ provider_calls (post_ai E "lengthen" b w).2
       = provider_calls w ++ [VStr (s +:+ " Make it longer and elaborative.")])
  ∧ (toString v = None →
     (∃ e, (post_ai E "shorten" b w).1 = inl e ∧ err_name e = "TypeError")
     ∧ provider_calls (post_ai E "shorten" b w).2 = provider_calls w
     ∧ (∃ e, (post_ai E "lengthen" b w).1 = inl e ∧ err_name e = "TypeError")
     ∧ provider_calls (post_ai E "lengthen" b w).2 = provider_calls w)
  ∧ (action ≠ "shorten" → action ≠ "lengthen" →
     provider_calls (post_ai E action b w).2 = provider_calls w ++ [v]).
Proof.
  intros Hb. pose proof (body_text_present _ _ Hb) as Ht. split_and!.
  - intros s Hs. split.
    + apply post_ai_calls. rewrite Ht. by rewrite (buildPrompt_convertible _ _ _ Hs).
    + apply post_ai_calls. rewrite Ht. by rewrite (buildPrompt_convertible _ _ _ Hs).
  - intros Hnone.
    assert (∀ a, a = "shorten" ∨ a = "lengthen" →
                 ∃ e, buildPrompt a (body_text b) = inl e ∧ err_name e = "TypeError")
      as Hthrows.
    { intros a Ha. rewrite Ht. unfold buildPrompt, plus_string, to_string.
      rewrite Hnone. destruct Ha as [-> | ->]; cbn; eauto. }
    destruct (Hthrows "shorten") as (e1 & H1 & Hn1); [by left|].
    destruct (Hthrows "lengthen") as (e2 & H2 & Hn2); [by right|].
    rewrite (post_ai_throws E _ b w e1 H1), (post_ai_throws E _ b w e2 H2).
    split_and!; eauto.
  - intros H1 H2. apply post_ai_calls. rewrite Ht. unfold buildPrompt.
    rewrite decide_False by done. by rewrite decide_False by done.
Qed.

Lemma post_ai_coerces_text_witness :
  let E := stub_env None (Resolves (inr "ok")) in
  provider_calls (post_ai E "shorten" {[ "text" := VNum "42" ]} fresh_world).2
    = [VStr "42 Make it shorter and concise."]
  ∧ provider_calls
      (post_ai E "lengthen" {[ "text" := VArr [VStr "a"; VNull; VObj ∅] ]} fresh_world).2
    = [VStr "a,,[object Object] Make it longer and elaborative."]
  ∧ provider_calls
      (post_ai E "shorten" {[ "text" := VObj {[ "toString" := VNum "1" ]} ]}
         fresh_world).2 = []
  ∧ provider_calls (post_ai E "translate" {[ "text" := VBool true ]} fresh_world).2
    = [VBool true].
Proof.
  intros E. split_and!.
  - destruct (post_ai_coerces_text E "x" (VNum "42") {[ "text" := VNum "42" ]}
                fresh_world) as (H1 & _); [reflexivity|].
    by destruct (H1 "42" eq_refl) as (? & _).
  - destruct (post_ai_coerces_text E "x" (VArr [VStr "a"; VNull; VObj ∅])
                {[ "text" := VArr [VStr "a"; VNull; VObj ∅] ]} fresh_world)
      as (H2 & _); [reflexivity|].
    by destruct (H2 "a,,[object Object]" eq_refl) as (_ & ?).
  - destruct (post_ai_coerces_text E "x" (VObj {[ "toString" := VNum "1" ]})
                {[ "text" := VObj {[ "toString" := VNum "1" ]} ]} fresh_world)
      as (_ & H3 & _); [reflexivity|].
    by destruct (H3 eq_refl) as (_ & ? & _).
  - destruct (post_ai_coerces_text E "translate" (VBool true)
                {[ "text" := VBool true ]} fresh_world) as (_ & _ & H3);
      [reflexivity | apply H3; discriminate].
Defined.

End GeminiMore.

(** ** The hardened server: logger, middleware and pipeline *)

Section HardenedMore.
Import JS Eff Server Hardened Observe Trace.

Ltac unfold_server :=
  unfold logged, validated, validateTextInput, transform_route, route_catch,
    error_middleware, not_found, get_health, get_ready, error_envelope,
    logger_warn, logger_info, logger_error, logger_debug, logger_log,
    on_uncaughtException, on_unhandledRejection, gracefulShutdown,
    process_exit, now_iso, process_uptime, Date_now, console_log,
    console_error, console_write, length_of, prop in *;
  unfold_eff.

Lemma utf16_length_app (a b : string) :
  utf16_length (a +:+ b) = utf16_length a + utf16_length b.
Proof.
  induction a as [|c a IH]; [done|].
  change (String c a +:+ b) with (String c (a +:+ b)).
  cbn [utf16_length]. rewrite IH. lia.
Qed.

(** Reading a key off a line of the logger. *)
Lemma json_log_lookup (fields : gmap string value) (k : string) :
  json_log (ConsoleLog [AJsonText (VObj fields)]) !! k = fields !! k ≫= json_member.
Proof. apply lookup_omap. Qed.

Lemma json_member_pretty (n : nat) :
  json_member (VNum (pretty n)) = Some (VNum (pretty n)).
Proof. unfold json_member. by rewrite jsonify_pretty. Qed.

(** X3.  One call of the logger writes one line.  Its [env] is always the
    server's mode, also when the caller's data has an [env] of its own; any
    other key of the data comes out as [JSON.stringify] prints its value,
    left out when the value is [undefined], and so replaces or removes the
    logger's [timestamp], [level] or [message] when it bears that name.
    The debug level is silent outside development. *)
Theorem logger_line (E : env) (level message : string)
    (data : gmap string value) (w : world) :
  (∃ l, logger_log E level message data w
        = (inr tt, World (provider_calls w) (console w ++ [l])
                         (S (clock_reads w)) (process w))
        ∧ json_log l !! "env" = Some (VStr (NODE_ENV E))
        ∧ (∀ k x, k ≠ "env" → data !! k = Some x → json_log l !! k = json_member x)
        ∧ (data !! "level" = None → json_log l !! "level" = Some (VStr level))
        ∧ (data !! "message" = None →
           json_log l !! "message" = Some (VStr message))
        ∧ (data !! "timestamp" = None →
           json_log l !! "timestamp"
           = Some (VStr (toISOString E (clock E (clock_reads w))))))
  ∧ (NODE_ENV E ≠ "development" → logger_debug E message data w = (inr tt, w)).
Proof.
  split.
  - unfold_server. eexists. split; [reflexivity|]. rewrite !json_log_lookup.
    split_and!.
    + by rewrite lookup_insert_eq.
    + intros k x Hk Hin. rewrite json_log_lookup, lookup_insert_ne by done.
      by rewrite (lookup_union_l' _ _ _ (mk_is_Some _ _ Hin)), Hin.
    + intros Hn. rewrite lookup_insert_ne by done. by rewrite lookup_union_r.
    + intros Hn. rewrite lookup_insert_ne by done. by rewrite lookup_union_r.
    + intros Hn. rewrite lookup_insert_ne by done. by rewrite lookup_union_r.
  - intros Hmode. unfold logger_debug. by rewrite decide_False.
Qed.

Lemma logger_line_witness :
  let E := stub_env (Some "production") (Resolves (inr "")) in
  ∃ l, console (logger_log E "INFO" "hello"
                  {[ "env" := VStr "spoofed"; "level" := VStr "FATAL";
                     "message" := VUndefined; "inputLength" := VNum "NaN" ]}
                  fresh_world).2
       = [l]
       ∧ json_log l !! "env" = Some (VStr "production")
       ∧ json_log l !! "level" = Some (VStr "FATAL")
       ∧ json_log l !! "message" = None
       ∧ json_log l !! "inputLength" = Some VNull
       ∧ json_log l !! "timestamp" = Some (VStr "0")
       ∧ logger_debug E "hello" ∅ fresh_world = (inr tt, fresh_world).
Proof.
  intros E.
  destruct (logger_line E "INFO" "hello"
              {[ "env" := VStr "spoofed"; "level" := VStr "FATAL";
                 "message" := VUndefined; "inputLength" := VNum "NaN" ]} fresh_world)
    as ((l & Hrun & Henv & Hdata & _ & _ & Hts) & Hdebug).
  exists l. split_and!.
  - by rewrite Hrun.
  - exact Henv.
  - rewrite (Hdata "level" (VStr "FATAL")); [reflexivity | discriminate | reflexivity].
  - rewrite (Hdata "message" VUndefined); [reflexivity | discriminate | reflexivity].
  - rewrite (Hdata "inputLength" (VNum "NaN")); [reflexivity | discriminate | reflexivity].
  - apply Hts. reflexivity.
  - destruct (logger_line E "INFO" "hello" ∅ fresh_world) as (_ & Hd).
    apply Hd. discriminate.
Defined.

(** X4.  The middleware writes to the console exactly when it rejects: one WARN
    line that names the request path, next to the 400; a request it hands
    on leaves no trace at all.  It never throws. *)
Theorem validate_logs_once (E : env) (req : request) (w : world) :
  match (validateTextInput E req w).1 with
  | inr (Responded r) =>
      status r = 400
      ∧ ∃ l, console (validateTextInput E req w).2 = console w ++ [l]
             ∧ json_log l !! "level" = Some (VStr "WARN")
             ∧ json_log l !! "path" = Some (VStr (req_path req))
             ∧ json_log l !! "env" = Some (VStr (NODE_ENV E))
  | inr Next => (validateTextInput E req w).2 = w
  | inl _ => False
  end.
Proof.
  unfold_server.
  destruct (truthy (body_text (req_body req))); cbn.
  - destruct (body_text (req_body req)); cbn;
      try (split; [done|]; eexists; split; [reflexivity|]; by split_and!).
    destruct (has_length_0 _); cbn; [|done].
    split; [done|]. eexists. split; [reflexivity|]. by split_and!.
  - split; [done|]. eexists. split; [reflexivity|]. by split_and!.
Qed.

(** X5.  On a valid text the middleware is transparent: the route behaves as
    its handler alone would, whatever the handler. *)
Theorem validated_transparent (E : env) (handler : request → SM response)
    (req : request) (w : world) (T : string) :
  req_body req !! "text" = Some (VStr T) → blank T = false →
  validated E handler req w = handler req w.
Proof.
  intros Hb Hbl. unfold validated. unfold_eff.
  by rewrite (validate_passes E req w T (body_text_present _ _ Hb) Hbl).
Qed.

Lemma validated_transparent_witness :
  let E := stub_env None (Resolves (inr "")) in
  let req := Request "POST" "/api/make-longer" {[ "text" := VStr " Hello " ]} in
  post_make_longer E req fresh_world = make_longer_handler E req fresh_world.
Proof.
  intros E req.
  apply (validated_transparent E (make_longer_handler E) req fresh_world " Hello ");
    reflexivity.
Defined.

(** X6.  A transform route logs one INFO line per request it serves, with the
    length of the text and the length of the result: the result is longer
    than the text by the 20 characters of "Shorter version of: ", or the 19
    of "Longer version of: ". *)
Theorem transform_logs_lengths (E : env) (req : request) (w : world) (T : string) :
  req_body req !! "text" = Some (VStr T) →
  (∃ r l, (make_shorter_handler E req w).1 = inr r
          ∧ status r = 200
          ∧ console (make_shorter_handler E req w).2 = console w ++ [l]
          ∧ json_log l !! "level" = Some (VStr "INFO")
          ∧ json_log l !! "inputLength" = Some (VNum (pretty (utf16_length T)))
          ∧ json_log l !! "outputLength"
            = Some (VNum (pretty (20 + utf16_length T))))
  ∧ (∃ r l, (make_longer_handler E req w).1 = inr r
            ∧ status r = 200
            ∧ console (make_longer_handler E req w).2 = console w ++ [l]
            ∧ json_log l !! "level" = Some (VStr "INFO")
            ∧ json_log l !! "inputLength" = Some (VNum (pretty (utf16_length T)))
            ∧ json_log l !! "outputLength"
              = Some (VNum (pretty (19 + utf16_length T)))).
Proof.
  intros Hb. pose proof (body_text_present _ _ Hb) as Ht.
  unfold make_shorter_handler, make_longer_handler. unfold_server.
  unfold lift, to_string. rewrite Ht. cbn [toString]. cbn beta iota.
  rewrite !utf16_length_app.
  split; (do 2 eexists; split; [reflexivity|]; split; [reflexivity|];
          split; [reflexivity|]).
  all: split_and!; [reflexivity|..];
    (etrans; [|apply json_member_pretty]; reflexivity).
Qed.

Lemma transform_logs_lengths_witness :
  let E := stub_env None (Resolves (inr "")) in
  let req := Request "POST" "/api/make-shorter" {[ "text" := VStr "Hello world" ]} in
  ∃ l, console (make_shorter_handler E req fresh_world).2 = [l]
       ∧ json_log l !! "inputLength" = Some (VNum "11")
       ∧ json_log l !! "outputLength" = Some (VNum "31").
Proof.
  intros E req.
  destruct (transform_logs_lengths E req fresh_world "Hello world")
    as ((r & l & _ & _ & Hc & _ & Hi & Ho) & _); [reflexivity|].
  exists l. split_and!; [exact Hc | exact Hi | exact Ho].
Defined.

(** X7.  The handlers lean on the middleware.  Mounted without it, a handler
    answers a body whose text is missing or [null] with 500 "Internal
    server error" ([text.length] throws), and serves a number as if it were
    its text. *)
Theorem handler_needs_validation (E : env) (req : request) (w : world) :
  (req_body req !! "text" = None ∨ req_body req !! "text" = Some VNull →
   ∃ r, (make_shorter_handler E req w).1 = inr r
        ∧ status r = 500
        ∧ json_field "error" r = VStr "Internal server error"
        ∧ json_field "result" r = VUndefined)
  ∧ (∀ lit, req_body req !! "text" = Some (VNum lit) →
     ∃ r, (make_shorter_handler E req w).1 = inr r
          ∧ status r = 200
          ∧ json_field "result" r = VStr ("Shorter version of: " +:+ lit)).
Proof.
  split.
  - intros Hb.
    assert (body_text (req_body req) = VUndefined ∨ body_text (req_body req) = VNull)
      as [Ht|Ht].
    { destruct Hb as [Hb|Hb]; [left; by apply body_text_absent
                              |right; by apply body_text_present]. }
    all: unfold make_shorter_handler; unfold_server; rewrite Ht; cbn;
      eexists; split; [reflexivity|]; by split_and!.
  - intros lit Hb. unfold make_shorter_handler. unfold_server.
    rewrite (body_text_present _ _ Hb). cbn.
    eexists. split; [reflexivity|]. by split_and!.
Qed.

Lemma handler_needs_validation_witness :
  let E := stub_env (Some "production") (Resolves (inr "")) in
  (∃ r, (make_shorter_handler E (Request "POST" "/api/make-shorter" ∅) fresh_world).1
        = inr r ∧ status r = 500)
  ∧ (∃ r, (make_shorter_handler E
             (Request "POST" "/api/make-shorter" {[ "text" := VNum "42" ]})
             fresh_world).1 = inr r
          ∧ json_field "result" r = VStr "Shorter version of: 42").
Proof.
  intros E. split.
  - destruct (handler_needs_validation E (Request "POST" "/api/make-shorter" ∅)
                fresh_world) as (H500 & _).
    destruct H500 as (r & Hr & Hs & _); [left; reflexivity|].
    exists r. by split.
  - destruct (handler_needs_validation E
                (Request "POST" "/api/make-shorter" {[ "text" := VNum "42" ]})
                fresh_world) as (_ & H200).
    destruct (H200 "42") as (r & Hr & _ & Hres); [reflexivity|].
    exists r. by split.
Defined.

(** X8.  The pipeline always answers.  What the route returns is sent as it
    is; what the route throws becomes an "Internal server error" with the
    error's own status, or 500 when it has none, and a message that shows
    the error's text in development only.  Either way the last console
    line is the access log, with the status that was sent. *)
Theorem logged_always_answers (E : env) (route : request → SM response)
    (req : request) (w : world) :
  let w1 := (Date_now E w).2 in
  ∃ r l lines,
    (logged E route req w).1 = inr r
    ∧ console (logged E route req w).2 = lines ++ [l]
    ∧ json_log l !! "message" = Some (VStr "Request completed")
    ∧ json_log l !! "status" = Some (VNum (pretty (status r)))
    ∧ json_log l !! "method" = Some (VStr (req_method req))
    ∧ json_log l !! "path" = Some (VStr (req_path req))
    ∧ (∀ r0, (route req w1).1 = inr r0 → r = r0)
    ∧ (∀ e, (route req w1).1 = inl e →
       status r = error_status e
       ∧ json_field "error" r = VStr "Internal server error"
       ∧ json_field "message" r
         = if decide (NODE_ENV E = "development")
           then VStr (err_message e) else VStr "An error occurred").
Proof.
  intros w1. subst w1. unfold_server. cbn.
  match goal with |- context [route req ?w0] =>
    destruct (route req w0) as [[e|r0] w'] eqn:Hrun end; cbn.
  - do 3 eexists. split; [reflexivity|]. split; [reflexivity|].
    split_and!; try done;
      try (etrans; [|apply json_member_pretty]; reflexivity).
    intros e' [= <-]. by split_and!.
  - do 3 eexists. split; [reflexivity|]. split; [reflexivity|].
    split_and!; try done;
      try (etrans; [|apply json_member_pretty]; reflexivity).
    by intros r1 [= <-].
Qed.

(** X9.  A request no route matches is answered 404 "Not found" with a message
    that names the path, and leaves two lines on the console: the warning
    and the access log, which records the 404. *)
Theorem not_found_envelope (E : env) (req : request) (w : world) :
  ∃ r l1 l2,
    (logged E (not_found E) req w).1 = inr r
    ∧ status r = 404
    ∧ json_field "error" r = VStr "Not found"
    ∧ json_field "message" r = VStr ("Endpoint " +:+ req_path req +:+ " not found")
    ∧ console (logged E (not_found E) req w).2 = console w ++ [l1; l2]
    ∧ json_log l1 !! "level" = Some (VStr "WARN")
    ∧ json_log l1 !! "message" = Some (VStr "Not found")
    ∧ json_log l2 !! "status" = Some (VNum "404").
Proof.
  unfold_server. cbn. do 3 eexists. split; [reflexivity|].
  split; [reflexivity|]. split; [reflexivity|]. split; [reflexivity|].
  split; [by rewrite <- app_assoc|]. by split_and!.
Qed.

(** X10.  Serving requests never touches the process or the provider: the two
    transform routes, the 404 handler and the probes, all behind the access
    log, leave the listener up, the exit code unset or as it was, and the
    provider uncalled.  Of the process listeners, an unhandled rejection
    only logs, while an uncaught exception exits with code 1. *)
Theorem serving_leaves_process (E : env) (req : request) (w : world)
    (error : js_error) (reason : js_error + value) :
  server_frame w (logged E (post_make_shorter E) req w).2
  ∧ server_frame w (logged E (post_make_longer E) req w).2
  ∧ server_frame w (logged E (not_found E) req w).2
  ∧ server_frame w (logged E (λ _, get_health E) req w).2
  ∧ server_frame w (logged E (λ _, get_ready E) req w).2
  ∧ server_frame w (on_unhandledRejection E reason w).2
  ∧ provider_calls (on_uncaughtException E error w).2 = provider_calls w
  ∧ process (on_uncaughtException E error w).2
    = Process (listening (process w)) (Some 1%Z).
Proof.
  unfold server_frame, post_make_shorter, post_make_longer,
    make_shorter_handler, make_longer_handler.
  split_and!; unfold_server; unfold lift, String_of_reason, to_string; cbn;
    try done.
  all: try (destruct (truthy (body_text (req_body req))); cbn; try done;
            destruct (body_text (req_body req)); cbn; try done;
            destruct (has_length_0 _); cbn; done).
  all: destruct reason as [e|v]; cbn; [done|]; by destruct (toString v).
Qed.

(** X21.  The request-timeout middleware.  With [REQUEST_TIMEOUT] unset or
    empty it hands every request on: the app is the access log around the
    route.  With [REQUEST_TIMEOUT] set, what is read from the environment
    is a string, [req.setTimeout] throws, and every request, whatever its
    route, is answered by the error-handling middleware: 500 "Internal
    server error" and no result, one ERROR line "Unhandled error" on the
    console and no line of the access log; the route is not run and the
    provider not called. *)
Theorem timeout_middleware_by_configuration (E : env)
    (route route' : request → SM response) (req : request) (w : world) :
  (timeout_unset E → app E route req w = logged E route req w)
  ∧ (∀ s, env_REQUEST_TIMEOUT E = Some s → s ≠ "" →
     ∃ r l, (app E route req w).1 = inr r
            ∧ status r = 500
            ∧ json_field "error" r = VStr "Internal server error"
            ∧ json_field "result" r = VUndefined
            ∧ console (app E route req w).2 = console w ++ [l]
            ∧ json_log l !! "level" = Some (VStr "ERROR")
            ∧ json_log l !! "message" = Some (VStr "Unhandled error")
            ∧ provider_calls (app E route req w).2 = provider_calls w
            ∧ app E route' req w = app E route req w).
Proof.
  split; [apply app_unset|].
  intros s Hs Hne.
  unfold app, timeout_middleware, setTimeout_msecs, REQUEST_TIMEOUT. unfold_eff.
  rewrite Hs, decide_False by done. unfold_server. cbn.
  do 2 eexists. split; [reflexivity|]. by split_and!.
Qed.

Lemma timeout_middleware_by_configuration_witness :
  let E := with_REQUEST_TIMEOUT "30000"
             (stub_env (Some "production") (Resolves (inr "unused"))) in
  let req := Request "GET" "/health" ∅ in
  ∃ r, (app E (λ _, get_health E) req fresh_world).1 = inr r
       ∧ status r = 500
       ∧ json_field "error" r = VStr "Internal server error"
       ∧ app E (not_found E) req fresh_world = app E (λ _, get_health E) req fresh_world.
Proof.
  intros E req.
  destruct (timeout_middleware_by_configuration E (λ _, get_health E) (not_found E)
              req fresh_world) as (_ & Hset).
  destruct (Hset "30000") as (r & l & Hr & Hs & He & _ & _ & _ & _ & _ & Hsame);
    [reflexivity | discriminate |].
  exists r. by split_and!.
Defined.

End HardenedMore.

(** ** The minimal stub server on any body *)

Section StubMore.
Import JS Eff Server Observe.

(** X11.  The minimal stub validates nothing.  Whenever ToString gives a
    string for the text, whatever its type, it answers 200 with the prefix
    put before that string, so a request without text is answered "Shorter
    version of: undefined"; it logs nothing and changes nothing.  When
    ToString throws (an object with a [toString] of its own that is no
    function), the handler throws that TypeError and sends no result. *)
Theorem stub_never_rejects (req : request) (w : world) :
  (∀ s, toString (body_text (req_body req)) = Some s →
     Stub.post_make_shorter req w
     = (inr (Response 200 (Json (VObj {[ "result" :=
          VStr ("Shorter version of: " +:+ s) ]}))), w)
     ∧ Stub.post_make_longer req w
       = (inr (Response 200 (Json (VObj {[ "result" :=
            VStr ("Longer version of: " +:+ s) ]}))), w))
  ∧ (toString (body_text (req_body req)) = None →
     ∃ e, err_name e = "TypeError"
          ∧ Stub.post_make_shorter req w = (inl e, w)
          ∧ Stub.post_make_longer req w = (inl e, w))
  ∧ (req_body req !! "text" = None →
     Stub.post_make_shorter req w
     = (inr (Response 200 (Json (VObj {[ "result" :=
          VStr "Shorter version of: undefined" ]}))), w)
     ∧ Stub.post_make_longer req w
       = (inr (Response 200 (Json (VObj {[ "result" :=
            VStr "Longer version of: undefined" ]}))), w)).
Proof.
  unfold Stub.post_make_shorter, Stub.post_make_longer, lift, to_string.
  unfold_eff. split_and!.
  - intros s Hs. by rewrite Hs.
  - intros Hnone. rewrite Hnone.
    by exists (TypeError "Cannot convert object to primitive value").
  - intros Hb. by rewrite (body_text_absent _ Hb).
Qed.

Lemma stub_never_rejects_witness :
  Stub.post_make_shorter (Request "POST" "/api/make-shorter" ∅) fresh_world
  = (inr (Response 200 (Json (VObj {[ "result" :=
       VStr "Shorter version of: undefined" ]}))), fresh_world)
  ∧ Stub.post_make_longer
      (Request "POST" "/api/make-longer" {[ "text" := VArr [VNum "1"; VNum "2"] ]})
      fresh_world
    = (inr (Response 200 (Json (VObj {[ "result" :=
         VStr "Longer version of: 1,2" ]}))), fresh_world)
  ∧ (Stub.post_make_shorter
       (Request "POST" "/api/make-shorter"
          {[ "text" := VObj {[ "toString" := VNum "1" ]} ]}) fresh_world).1
    = inl (TypeError "Cannot convert object to primitive value").
Proof.
  split_and!.
  - destruct (stub_never_rejects (Request "POST" "/api/make-shorter" ∅) fresh_world)
      as (_ & _ & H).
    destruct H as (H1 & _); [reflexivity | exact H1].
  - destruct (stub_never_rejects
                (Request "POST" "/api/make-longer"
                   {[ "text" := VArr [VNum "1"; VNum "2"] ]}) fresh_world)
      as (H & _).
    by destruct (H "1,2" eq_refl) as (_ & ?).
  - destruct (stub_never_rejects
                (Request "POST" "/api/make-shorter"
                   {[ "text" := VObj {[ "toString" := VNum "1" ]} ]}) fresh_world)
      as (_ & H & _).
    destruct (H eq_refl) as (e & _ & Hs & _). rewrite Hs.
    vm_compute in Hs. by injection Hs as <-.
Defined.

End StubMore.

(** ** The client handlers: every outcome *)

Section ClientMore.
Import JS Eff Client ObserveClient.
Context {S : Type} `{Editor S}.

Ltac unfold_client :=
  unfold AppPanel.handleAIAction, AppAxios.handleAIAction, AppBubble.handleAction,
    AppPanel.setError, AppPanel.setTimeout, AppPanel.setLoading,
    AppPanel.setSuccess, AppPanel.setTransformedText, AppAxios.lookup_url,
    axios_post, fetch, response_json, send, suspended, dispatch, editor_state,
    client_log, set_ui, prop, destructure in *;
  unfold_eff.

(** The error a non-2xx reply becomes in axios. *)
Lemma panel_http_error (C : client_env S) (action : string)
    (w : client S AppPanel.ui_state) (ed : S) (code : nat) (p : payload) :
  editor w = Some ed → blank (parent_textContent ed) = false →
  net C (panel_request C action (parent_textContent ed)) = HttpReply code p →
  (200 <=? code) && (code <? 300) = false →
  AppPanel.error (ui (AppPanel.handleAIAction C action w).2)
  = AppPanel.errorMsg
      (JsError "AxiosError" ("Request failed with status code " +:+ pretty code)
         ("AxiosError: Request failed with status code " +:+ pretty code)
         (Some code)
         (Some (match p with JsonPayload v => v | RawPayload s => VStr s end))).
Proof.
  intros Hed Hbl Hnet Hko. unfold panel_request in Hnet.
  unfold_client. rewrite Hed, falsy_or_blank, Hbl. cbn -[Nat.leb Nat.ltb].
  rewrite Hnet. cbn -[Nat.leb Nat.ltb]. by rewrite Hko.
Qed.

(** X12.  The notice of a failure is never empty: the message shown is the
    reply's own [message] when it has a truthy one, else the error's
    message when that is not empty, else "Failed to process text". *)
Theorem errorMsg_never_empty (err : js_error) :
  truthy (AppPanel.errorMsg err) = true
  ∧ (∀ d, err_response_data err = Some d →
     truthy (opt_prop d "message") = true →
     AppPanel.errorMsg err = opt_prop d "message")
  ∧ (err_response_data err = None
     ∨ (∃ d, err_response_data err = Some d
             ∧ truthy (opt_prop d "message") = false) →
     (err_message err ≠ "" → AppPanel.errorMsg err = VStr (err_message err))
     ∧ (err_message err = "" →
        AppPanel.errorMsg err = VStr "Failed to process text")).
Proof.
  unfold AppPanel.errorMsg. split_and!.
  - destruct (truthy (match err_response_data err with
                      | Some d => opt_prop d "message"
                      | None => VUndefined
                      end)) eqn:Hm; [done|].
    by destruct (truthy (VStr (err_message err))) eqn:He.
  - intros d -> Ht. by rewrite Ht.
  - intros Hno.
    assert (truthy (match err_response_data err with
                    | Some d => opt_prop d "message"
                    | None => VUndefined
                    end) = false) as ->.
    { destruct Hno as [->|(d & -> & Hf)]; done. }
    split.
    + intros Hne. cbn. by rewrite bool_decide_false.
    + intros ->. reflexivity.
Qed.

Lemma errorMsg_never_empty_witness :
  AppPanel.errorMsg
    (JsError "AxiosError" "Request failed with status code 400" "" (Some 400)
       (Some (VObj {[ "error" := VStr "Invalid request";
                      "message" := VStr "Text cannot be empty" ]})))
  = VStr "Text cannot be empty"
  ∧ AppPanel.errorMsg (JsError "Error" "Network Error" "" None None)
    = VStr "Network Error"
  ∧ AppPanel.errorMsg (JsError "Error" "" "" None None)
    = VStr "Failed to process text".
Proof.
  split_and!.
  - destruct (errorMsg_never_empty
                (JsError "AxiosError" "Request failed with status code 400" "" (Some 400)
                   (Some (VObj {[ "error" := VStr "Invalid request";
                                  "message" := VStr "Text cannot be empty" ]}))))
      as (_ & Hd & _).
    apply (Hd _ eq_refl). reflexivity.
  - destruct (errorMsg_never_empty (JsError "Error" "Network Error" "" None None))
      as (_ & _ & Hm).
    destruct Hm as (Hm & _); [by left|]. apply Hm. discriminate.
  - destruct (errorMsg_never_empty (JsError "Error" "" "" None None)) as (_ & _ & Hm).
    destruct Hm as (_ & Hm); [by left|]. by apply Hm.
Defined.

(** X13.  The panel handler never throws, sends at most one request, does
    nothing at all while the editor is not there yet, and never leaves the
    busy flag up: a flag that was down is down again when the handler is
    done, however the request ended. *)
Theorem panel_never_stuck (C : client_env S) (action : string)
    (w : client S AppPanel.ui_state) :
  let out := AppPanel.handleAIAction C action w in
  out.1 = inr tt
  ∧ (AppPanel.loading (ui w) = false → AppPanel.loading (ui out.2) = false)
  ∧ (requests out.2 = requests w ∨ ∃ r, requests out.2 = requests w ++ [r])
  ∧ (editor w = None → out.2 = w).
Proof.
  destruct (editor w) as [ed|] eqn:Hed.
  - destruct (blank (parent_textContent ed)) eqn:Hbl.
    + cbn zeta. unfold_client. rewrite Hed, falsy_or_blank, Hbl. cbn.
      split_and!; [done|done|by left|done].
    + destruct (panel_editor_untouched C action w ed Hed Hbl) as (H1 & _ & H3 & H4).
      cbn zeta. split_and!; [done|done|right; eauto|done].
  - cbn zeta. unfold_client. rewrite Hed. split_and!; [done|done|by left|].
    intros _. by destruct w.
Qed.


(** X15.  As the file stands, with the lines that declare [url] commented out,
    the axios variant cannot reach the network: whatever is selected, it
    sends nothing and changes neither the editor nor its state, and for a
    non-empty selection all it does is log the ReferenceError. *)
Theorem axios_never_sends (C : client_env S) (action : string)
    (w : client S value) (ed : S) :
  scope_url C = None → editor w = Some ed →
  let out := AppAxios.handleAIAction C action w in
  out.1 = inr tt
  ∧ requests out.2 = requests w
  ∧ editor out.2 = editor w
  ∧ ui out.2 = ui w
  ∧ (selection_content_toString ed ≠ "" →
     cconsole out.2
     = cconsole w ++ [ConsoleError [AVal (VStr "AI action failed:");
                                    AErr (ReferenceError "url is not defined")]]).
Proof.
  intros Hurl Hed. unfold_client. rewrite Hed, Hurl. cbn.
  destruct (bool_decide_reflect (selection_content_toString ed = "")) as [Hs|Hs]; cbn.
  - by split_and!.
  - by split_and!.
Qed.

(** X16.  For a selection that is not blank the bubble-menu variant sends
    exactly one request, whatever comes back: a POST to
    [http://localhost:5001/ai/<action>] whose text is the selection as it
    is, not trimmed.  It never throws. *)
Theorem bubble_sends_selection (C : client_env S) (action : string)
    (w : client S unit) (ed : S) :
  editor w = Some ed →
  blank (textBetween ed (selection ed).1 (selection ed).2) = false →
  let out := AppBubble.handleAction C action w in
  out.1 = inr tt
  ∧ requests out.2
    = requests w
      ++ [HttpPost ("http://localhost:5001/ai/" +:+ action)
            (VObj {[ "text" :=
               VStr (textBetween ed (selection ed).1 (selection ed).2) ]})].
Proof.
  intros Hed Hbl.
  unfold_client. rewrite Hed, not_truthy_trim, Hbl. cbn -[Nat.leb Nat.ltb].
  destruct (net C _) as [e|code p]; cbn -[Nat.leb Nat.ltb].
  - done.
  - destruct ((200 <=? code) && (code <? 300)); cbn; [|done].
    destruct p as [data|raw]; cbn; [|done].
    destruct (truthy data && truthy (get_field data "result")); cbn;
      rewrite ?Hed; done.
Qed.

End ClientMore.

(** ** Client and server together *)

Section EndToEnd.
Import JS Eff Server Client Observe ObserveClient Wire.
Context {S : Type} `{Editor S}.

(** The Gemini proxy, reached from a button of the bubble menu. *)
Lemma gemini_net_button (E : env) (ws : world)
    (elsewhere : http_request → http_outcome) (action T : string) :
  action = "shorten" ∨ action = "lengthen" →
  gemini_net E ws elsewhere (bubble_request action T)
  = served (Gemini.post_ai E action {[ "text" := VStr T ]} ws)
           (elsewhere (bubble_request action T)).
Proof. by intros [-> | ->]. Qed.

(** X17.  The bubble-menu editor in front of the Gemini proxy.  The two
    buttons' actions are the two the proxy knows, so the provider is asked
    for the selection followed by the suffix.  When it answers with a text
    that is not empty, that text goes into the document at the selection
    current by then; an empty answer is logged as an unexpected response and
    a provider failure as a failed request (status 500), and either leaves
    the document to the user. *)
Theorem bubble_with_gemini (C : client_env S) (E : env) (ws : world)
    (elsewhere : http_request → http_outcome) (action suffix : string)
    (w : client S unit) (ed : S) :
  net C = gemini_net E ws elsewhere →
  editor w = Some ed →
  blank (textBetween ed (selection ed).1 (selection ed).2) = false →
  (action = "shorten" ∧ suffix = " Make it shorter and concise."
   ∨ action = "lengthen" ∧ suffix = " Make it longer and elaborative.") →
  let prompt := VStr (textBetween ed (selection ed).1 (selection ed).2 +:+ suffix) in
  let out := AppBubble.handleAction C action w in
  let now := meanwhile C (Datatypes.S (awaits w)) (meanwhile C (awaits w) ed) in
  (∀ R, provider E prompt = Resolves (inr R) → R ≠ "" →
     editor out.2 = Some (insertContentAt now (selection now) (VStr R)))
  ∧ (provider E prompt = Resolves (inr "") →
     editor out.2 = Some now
     ∧ ∃ line, cconsole out.2 = cconsole w ++ [line;
         ConsoleError [AVal (VStr "Unexpected API response structure:");
                       AVal (VObj {[ "result" := VStr "" ]})]])
  ∧ (∀ e, provider E prompt = Rejects e ∨ provider E prompt = Resolves (inl e) →
     editor out.2 = Some (meanwhile C (awaits w) ed)
     ∧ cconsole out.2
       = cconsole w
         ++ [ConsoleError [AVal (VStr "API request failed with status: 500")]]).
Proof.
  intros Hnet Hed Hbl Ha prompt out now. subst prompt out now.
  set (T := textBetween ed (selection ed).1 (selection ed).2) in *.
  assert (action = "shorten" ∨ action = "lengthen") as Hact
    by (destruct Ha as [[? _]|[? _]]; auto).
  assert (Gemini.buildPrompt action (body_text {[ "text" := VStr T ]})
          = inr (VStr (T +:+ suffix))) as Hp
    by (destruct Ha as [[-> ->]|[-> ->]]; reflexivity).
  pose proof (gemini_net_button E ws elsewhere action T Hact) as Hwire.
  split_and!.
  - intros R HR HRne.
    apply (bubble_success C action w ed (VStr R) Hed Hbl).
    exists 200, (VObj {[ "result" := VStr R ]}).
    split_and!; [|done|done|by cbn; rewrite bool_decide_false].
    rewrite Hnet. fold T. rewrite Hwire. unfold served.
    by rewrite (post_ai_success E action _ ws _ R Hp HR).
  - intros HR.
    assert (net C (bubble_request action T)
            = HttpReply 200 (JsonPayload (VObj {[ "result" := VStr "" ]}))) as Hrep.
    { rewrite Hnet, Hwire. unfold served.
      by rewrite (post_ai_success E action _ ws _ "" Hp HR). }
    unfold bubble_request in Hrep. clear Hwire Hnet.
    unfold AppBubble.handleAction, fetch, response_json, send, suspended,
      dispatch, editor_state, client_log. unfold_eff.
    rewrite Hed, not_truthy_trim. fold T. rewrite Hbl. cbn -[Nat.leb Nat.ltb].
    rewrite Hrep. cbn. rewrite lookup_singleton_eq. cbn.
    rewrite bool_decide_true by done. cbn. rewrite Hed.
    split; [done|]. eexists. by rewrite <- app_assoc.
  - intros e He.
    assert (net C (bubble_request action T)
            = HttpReply 500 (JsonPayload (VObj {[ "error" :=
                VStr ("Failed to process AI request: " +:+ err_message e) ]}))) as Hrep.
    { rewrite Hnet, Hwire. unfold served.
      by rewrite (post_ai_failure E action _ ws _ e Hp He). }
    unfold bubble_request in Hrep. clear Hwire Hnet.
    unfold AppBubble.handleAction, fetch, response_json, send, suspended,
      dispatch, editor_state, client_log. unfold_eff.
    rewrite Hed, not_truthy_trim. fold T. rewrite Hbl. cbn -[Nat.leb Nat.ltb].
    rewrite Hrep. cbn. by rewrite Hed.
Qed.

Lemma truthy_app (pre T : string) : pre ≠ "" → truthy (VStr (pre +:+ T)) = true.
Proof.
  intros Hpre. cbn. rewrite bool_decide_false; [done|].
  destruct pre; [done|discriminate].
Qed.

(** What the hardened server sends back for a text that is not blank, with
    [REQUEST_TIMEOUT] unset. *)
Lemma hardened_serves_valid (E : env) (ws : world)
    (pre processed failed path T : string) :
  timeout_unset E → blank T = false →
  ∃ r data,
    (Hardened.app E
       (Hardened.validated E (Hardened.transform_route E pre processed failed))
       (Request "POST" path {[ "text" := VStr T ]}) ws).1 = inr r
    ∧ reply_of r = HttpReply 200 (JsonPayload data)
    ∧ get_field data "result" = VStr (pre +:+ T).
Proof.
  intros Hunset Hbl.
  destruct (app_route_valid E pre processed failed
              (Request "POST" path {[ "text" := VStr T ]}) ws T)
    as (r & Hr & Hs & Hres & _); [done..|].
  exists r. destruct r as [code [data|raw]]; cbn in *; [|done]. subst code.
  by exists data.
Qed.

(** The hardened server, reached from the panel editor. *)
Lemma hardened_net_panel (E : env) (ws : world) (C : client_env S)
    (elsewhere : http_request → http_outcome) (action T : string) :
  hardened_net E ws (AppPanel.API_URL C) elsewhere (panel_request C action T)
  = if decide (action = "shorter")
    then served (Hardened.app E (Hardened.post_make_shorter E)
                   (Request "POST" "/api/make-shorter" {[ "text" := VStr T ]}) ws)
                (elsewhere (panel_request C action T))
    else served (Hardened.app E (Hardened.post_make_longer E)
                   (Request "POST" "/api/make-longer" {[ "text" := VStr T ]}) ws)
                (elsewhere (panel_request C action T)).
Proof.
  unfold hardened_net, panel_request. cbn [json url].
  destruct (decide (action = "shorter")) as [Ha|Ha].
  - by rewrite decide_True.
  - rewrite decide_False; [by rewrite decide_True|].
    intros Heq%(inj (String.app _)). discriminate.
Qed.

(** X18.  The panel editor in front of the hardened server, run with
    [REQUEST_TIMEOUT] unset.  What the panel sends always passes the
    server's validation, the two sides testing for the same blank text;
    the paragraph comes back behind "Shorter version of: " for the action
    [shorter] and behind "Longer version of: " for any other action, and is
    shown in the result panel with the success flag up and no error.  With
    [REQUEST_TIMEOUT] set the same request comes back 500, and the panel
    shows the server's message and no result. *)
Theorem panel_with_hardened (C : client_env S) (E : env) (ws : world)
    (elsewhere : http_request → http_outcome) (action : string)
    (w : client S AppPanel.ui_state) (ed : S) :
  net C = hardened_net E ws (AppPanel.API_URL C) elsewhere →
  editor w = Some ed →
  blank (parent_textContent ed) = false →
  let out := AppPanel.handleAIAction C action w in
  (timeout_unset E →
   AppPanel.transformedText (ui out.2)
   = VStr ((if decide (action = "shorter")
            then "Shorter version of: " else "Longer version of: ")
           +:+ parent_textContent ed)
   ∧ AppPanel.success (ui out.2) = true
   ∧ AppPanel.error (ui out.2) = VNull)
  ∧ (∀ s, env_REQUEST_TIMEOUT E = Some s → s ≠ "" → Hardened.NODE_ENV E ≠ "development" →
     AppPanel.transformedText (ui out.2) = AppPanel.transformedText (ui w)
     ∧ AppPanel.success (ui out.2) = false
     ∧ AppPanel.error (ui out.2) = VStr "An error occurred").
Proof.
  intros Hnet Hed Hbl out. subst out.
  set (T := parent_textContent ed) in *. split.
  - intros Hunset.
    set (prefix := if decide (action = "shorter")
                   then "Shorter version of: " else "Longer version of: ").
    apply (panel_success C action w ed (VStr (prefix +:+ T)) Hed Hbl).
    fold T. rewrite Hnet, hardened_net_panel. unfold served, succeeded_with, prefix.
    destruct (decide (action = "shorter")).
    + destruct (hardened_serves_valid E ws "Shorter version of: "
                  "Make-shorter request processed" "Error in make-shorter endpoint"
                  "/api/make-shorter" T Hunset Hbl) as (r & data & Hr & Hrep & Hres).
      unfold Hardened.post_make_shorter, Hardened.make_shorter_handler.
      rewrite Hr, Hrep. exists 200, data. split_and!; [done..|].
      apply truthy_app. discriminate.
    + destruct (hardened_serves_valid E ws "Longer version of: "
                  "Make-longer request processed" "Error in make-longer endpoint"
                  "/api/make-longer" T Hunset Hbl) as (r & data & Hr & Hrep & Hres).
      unfold Hardened.post_make_longer, Hardened.make_longer_handler.
      rewrite Hr, Hrep. exists 200, data. split_and!; [done..|].
      apply truthy_app. discriminate.
  - intros s Hs Hne Hmode.
    assert (∃ ts, net C (panel_request C action T)
                  = HttpReply 500 (JsonPayload
                      (VObj {[ "error" := VStr "Internal server error";
                               "message" := VStr "An error occurred";
                               "timestamp" := VStr ts ]}))) as [ts Hrep].
    { rewrite Hnet, hardened_net_panel. unfold served.
      destruct (decide (action = "shorter")).
      - destruct (app_set E (Hardened.post_make_shorter E)
                    (Request "POST" "/api/make-shorter" {[ "text" := VStr T ]}) ws s
                    Hs Hne) as (err & -> & _ & Hst).
        unfold Hardened.error_middleware, Hardened.error_envelope,
          Hardened.logger_error, Hardened.logger_log, Hardened.error_status,
          now_iso, Date_now, console_log, console_write. unfold_eff. cbn.
        rewrite Hst, decide_False by done. by eexists.
      - destruct (app_set E (Hardened.post_make_longer E)
                    (Request "POST" "/api/make-longer" {[ "text" := VStr T ]}) ws s
                    Hs Hne) as (err & -> & _ & Hst).
        unfold Hardened.error_middleware, Hardened.error_envelope,
          Hardened.logger_error, Hardened.logger_log, Hardened.error_status,
          now_iso, Date_now, console_log, console_write. unfold_eff. cbn.
        rewrite Hst, decide_False by done. by eexists. }
    assert (failed (net C (panel_request C action T))) as Hfail by by rewrite Hrep.
    pose proof (panel_failure C action w ed Hed Hbl Hfail) as Hpf.
    fold T in Hpf. cbn zeta in Hpf. rewrite Hrep in Hpf.
    destruct Hpf as (Htt & Herr & _). split_and!; [done| |].
    + clear Herr Htt. unfold panel_request in Hrep.
      unfold AppPanel.handleAIAction, AppPanel.setError, AppPanel.setTimeout,
        AppPanel.setLoading, AppPanel.setSuccess, AppPanel.setTransformedText,
        axios_post, send, suspended, client_log, set_ui, prop. unfold_eff.
      rewrite Hed, falsy_or_blank. fold T. rewrite Hbl. cbn -[Nat.leb Nat.ltb].
      by rewrite Hrep.
    + rewrite Herr. reflexivity.
Qed.

(** X19.  The panel shows what the hardened server says.  Any error envelope
    of that server that comes back with a status outside 2xx is shown by
    its [message]; the 500 of the Gemini proxy, which has an [error] key and
    no [message], is shown as axios words it. *)
Theorem panel_shows_server_message (C : client_env S) (E : env) (ws : world)
    (action label m detail : string) (code : nat) (r : response)
    (w : client S AppPanel.ui_state) (ed : S) :
  editor w = Some ed →
  blank (parent_textContent ed) = false →
  let o := net C (panel_request C action (parent_textContent ed)) in
  let out := AppPanel.handleAIAction C action w in
  ((Hardened.error_envelope E code label (VStr m) ws).1 = inr r →
   (200 <=? code) && (code <? 300) = false → m ≠ "" →
   o = reply_of r →
   AppPanel.error (ui out.2) = VStr m)
  ∧ (o = reply_of (Response 500 (Json (VObj {[ "error" := VStr detail ]}))) →
     AppPanel.error (ui out.2) = VStr "Request failed with status code 500").
Proof.
  intros Hed Hbl o out. subst o out. split.
  - intros Henv Hko Hm Hrep.
    unfold Hardened.error_envelope, now_iso, Date_now in Henv. unfold_eff.
    cbn in Henv. injection Henv as <-. unfold reply_of in Hrep. cbn in Hrep.
    rewrite (panel_http_error C action w ed _ _ Hed Hbl Hrep Hko).
    eapply errorMsg_server_message; [reflexivity| |done].
    by rewrite lookup_insert_ne, lookup_insert_eq.
  - intros Hrep. unfold reply_of in Hrep. cbn in Hrep.
    by rewrite (panel_http_error C action w ed _ _ Hed Hbl Hrep).
Qed.

End EndToEnd.

(** ** The further properties on concrete requests and documents *)

Section MoreExamples.
Import JS Eff Server Client Observe ObserveClient Trace Wire PlainText.

Lemma logged_always_answers_witness :
  let E := stub_env (Some "production") (Resolves (inr "")) in
  let timed_out := JsError "Error" "upstream timed out" "" (Some 504) None in
  let req := Request "POST" "/api/make-shorter" ∅ in
  ∃ r, (Hardened.logged E (λ _, throw timed_out) req fresh_world).1 = inr r
       ∧ status r = 504
       ∧ json_field "error" r = VStr "Internal server error"
       ∧ json_field "message" r = VStr "An error occurred".
Proof.
  intros E timed_out req.
  destruct (logged_always_answers E (λ _, throw timed_out) req fresh_world)
    as (r & l & lines & Hr & _ & _ & _ & _ & _ & _ & Hthrown).
  destruct (Hthrown timed_out) as (Hs & He & Hm); [reflexivity|].
  exists r. split_and!; [exact Hr | exact Hs | exact He | exact Hm].
Defined.

Lemma panel_never_stuck_witness :
  let C := quiet (NetworkFailure (JsError "Error" "Network Error" "" None None)) in
  let w := mounted (Buffer "Hello world" 0 5) AppPanel.initial_ui in
  AppPanel.loading (ui (AppPanel.handleAIAction C "shorter" w).2) = false
  ∧ AppPanel.handleAIAction C "shorter"
      (ClientState (None : option buffer) AppPanel.initial_ui [] [] 0)
    = (inr (), ClientState None AppPanel.initial_ui [] [] 0).
Proof.
  intros C w. split.
  - destruct (panel_never_stuck C "shorter" w) as (_ & Hl & _). by apply Hl.
  - destruct (panel_never_stuck C "shorter"
                (ClientState (None : option buffer) AppPanel.initial_ui [] [] 0))
      as (H1 & _ & _ & Hw).
    specialize (Hw eq_refl).
    destruct (AppPanel.handleAIAction C "shorter" _) as [o w']. cbn in *. by subst.
Defined.


Lemma axios_never_sends_witness :
  let C := quiet (HttpReply 200 (JsonPayload (VObj {[ "result" := VStr "Hi" ]}))) in
  let w := mounted (Buffer "Hello world" 0 5) (VStr "") in
  requests (AppAxios.handleAIAction C "shorter" w).2 = []
  ∧ editor (AppAxios.handleAIAction C "shorter" w).2 = Some (Buffer "Hello world" 0 5)
  ∧ cconsole (AppAxios.handleAIAction C "shorter" w).2
    = [ConsoleError [AVal (VStr "AI action failed:");
                     AErr (ReferenceError "url is not defined")]].
Proof.
  intros C w.
  destruct (axios_never_sends C "shorter" w (Buffer "Hello world" 0 5))
    as (_ & Hr & He & _ & Hc); [reflexivity | reflexivity |].
  split_and!; [exact Hr | exact He | apply Hc; discriminate].
Defined.

Lemma bubble_sends_selection_witness :
  let C := quiet (NetworkFailure (JsError "Error" "Network Error" "" None None)) in
  let w := mounted (Buffer "Hello  world" 5 8) () in
  requests (AppBubble.handleAction C "lengthen" w).2
  = [HttpPost "http://localhost:5001/ai/lengthen" (VObj {[ "text" := VStr "  w" ]})].
Proof.
  intros C w.
  destruct (bubble_sends_selection C "lengthen" w (Buffer "Hello  world" 5 8))
    as (_ & Hr); [reflexivity | reflexivity | exact Hr].
Defined.

Lemma bubble_with_gemini_witness :
  let E := stub_env None (Resolves (inr "Hi")) in
  let C := ClientEnv buffer (gemini_net E fresh_world (λ _, HttpReply 404 (RawPayload "")))
             (λ _ b, b) None None (λ _, "Unexpected end of JSON input") in
  let w := mounted (Buffer "Hello world" 0 5) () in
  editor (AppBubble.handleAction C "shorten" w).2 = Some (Buffer "Hi world" 2 2).
Proof.
  intros E C w.
  destruct (bubble_with_gemini C E fresh_world (λ _, HttpReply 404 (RawPayload ""))
              "shorten" " Make it shorter and concise." w (Buffer "Hello world" 0 5))
    as (Hok & _); [reflexivity | reflexivity | reflexivity | by left |].
  apply (Hok "Hi"); [reflexivity | discriminate].
Defined.

Lemma panel_with_hardened_witness :
  let E := stub_env (Some "production") (Resolves (inr "")) in
  let elsewhere : http_request → http_outcome := λ _, HttpReply 404 (RawPayload "") in
  let C := ClientEnv buffer
             (hardened_net E fresh_world "http://localhost:5005" elsewhere)
             (λ _ b, b) None None (λ _, "Unexpected end of JSON input") in
  let E' := with_REQUEST_TIMEOUT "30000" E in
  let C' := ClientEnv buffer
              (hardened_net E' fresh_world "http://localhost:5005" elsewhere)
              (λ _ b, b) None None (λ _, "Unexpected end of JSON input") in
  let w := mounted (Buffer "Hello world" 0 5) AppPanel.initial_ui in
  AppPanel.transformedText (ui (AppPanel.handleAIAction C "shorter" w).2)
    = VStr "Shorter version of: Hello world"
  ∧ AppPanel.transformedText (ui (AppPanel.handleAIAction C "longer" w).2)
    = VStr "Longer version of: Hello world"
  ∧ AppPanel.error (ui (AppPanel.handleAIAction C' "shorter" w).2)
    = VStr "An error occurred".
Proof.
  intros E elsewhere C E' C' w. split_and!.
  - destruct (panel_with_hardened C E fresh_world elsewhere
                "shorter" w (Buffer "Hello world" 0 5)) as (Ht & _);
      [reflexivity | reflexivity | reflexivity |].
    destruct Ht as (Ht & _); [by left | exact Ht].
  - destruct (panel_with_hardened C E fresh_world elsewhere
                "longer" w (Buffer "Hello world" 0 5)) as (Ht & _);
      [reflexivity | reflexivity | reflexivity |].
    destruct Ht as (Ht & _); [by left | exact Ht].
  - destruct (panel_with_hardened C' E' fresh_world elsewhere
                "shorter" w (Buffer "Hello world" 0 5)) as (_ & Hset);
      [reflexivity | reflexivity | reflexivity |].
    destruct (Hset "30000") as (_ & _ & Herr);
      [reflexivity | discriminate | discriminate | exact Herr].
Defined.

Lemma panel_shows_server_message_witness :
  let E := stub_env (Some "production") (Resolves (inr "")) in
  let w := mounted (Buffer "Hello world" 0 5) AppPanel.initial_ui in
  AppPanel.error
    (ui (AppPanel.handleAIAction
           (quiet (HttpReply 500 (JsonPayload
              (VObj {[ "error" := VStr "Internal server error";
                       "message" := VStr "An error occurred";
                       "timestamp" := VStr "0" ]}))))
           "shorter" w).2)
  = VStr "An error occurred"
  ∧ AppPanel.error
      (ui (AppPanel.handleAIAction
             (quiet (HttpReply 500 (JsonPayload
                (VObj {[ "error" := VStr "Failed to process AI request: boom" ]}))))
             "shorter" w).2)
    = VStr "Request failed with status code 500".
Proof.
  intros E w. split.
  - destruct (panel_shows_server_message
                (quiet (HttpReply 500 (JsonPayload
                   (VObj {[ "error" := VStr "Internal server error";
                            "message" := VStr "An error occurred";
                            "timestamp" := VStr "0" ]}))))
                E fresh_world "shorter" "Internal server error" "An error occurred"
                "" 500
                (Response 500 (Json (VObj {[ "error" := VStr "Internal server error";
                                             "message" := VStr "An error occurred";
                                             "timestamp" := VStr "0" ]})))
                w (Buffer "Hello world" 0 5)) as (Hm & _);
      [reflexivity | reflexivity |].
    apply Hm; [reflexivity | reflexivity | discriminate | reflexivity].
  - destruct (panel_shows_server_message
                (quiet (HttpReply 500 (JsonPayload
                   (VObj {[ "error" := VStr "Failed to process AI request: boom" ]}))))
                E fresh_world "shorter" "" "" "Failed to process AI request: boom" 500
                (Response 500 (Json (VObj ∅)))
                w (Buffer "Hello world" 0 5)) as (_ & Hg);
      [reflexivity | reflexivity |].
    apply Hg. reflexivity.
Defined.

End MoreExamples.
